(** * massa-dns: the name registry contract, embedded and verified

    Source: [assembly/contracts/main.ts].  The file is present in two
    variants of the same four operations:
    - the buffer variant, which returns [serializeResult(...)] as a
      [StaticArray<u8>] (module [Buffer] below);
    - the typed variant, which returns a [Result<T>] directly
      (module [Typed] below).
    [ONE_UNIT], [compute_cost], [is_valid_domain] and [split_domain] are
    textually identical in both and are embedded once. *)

From Stdlib Require Import ZArith String Ascii List Bool Lia.
From stdpp Require Import gmap list.
Import ListNotations.

Local Open Scope Z_scope.

(** ** Strings and machine integers *)

(** An AssemblyScript string is a sequence of UTF-16 code units;
    [length] counts code units and [charCodeAt] reads one. *)
Definition str : Type := list Z.

(** A source literal made of ASCII characters, as code units. *)
Fixpoint lit (s : string) : str :=
  match s with
  | EmptyString => []
  | String a s' => Z.of_N (N_of_ascii a) :: lit s'
  end.
Arguments lit _%_string.

(** [domain.length] *)
Definition str_length (s : str) : Z := Z.of_nat (length s).

(** [String#charCodeAt]: [-1] outside the string. *)
Definition charCodeAt (s : str) (i : Z) : Z :=
  if (i <? 0) || (str_length s <=? i) then -1
  else nth (Z.to_nat i) s (-1).

(** [String#lastIndexOf] for a one-unit needle: the greatest index holding
    [c], or [-1]. [i] is the index of the head of [s], [found] the last
    match seen so far. *)
Fixpoint lastIndexOf_from (c : Z) (s : str) (i found : Z) : Z :=
  match s with
  | [] => found
  | x :: s' => lastIndexOf_from c s' (i + 1) (if x =? c then i else found)
  end.

Definition lastIndexOf (s : str) (c : Z) : Z := lastIndexOf_from c s 0 (-1).

(** [String#slice(beginIndex, endIndex)] with its clamping of negative and
    oversized indices. *)
Definition slice (s : str) (beginIndex endIndex : Z) : str :=
  let len := str_length s in
  let b := if beginIndex <? 0 then Z.max (beginIndex + len) 0
           else Z.min beginIndex len in
  let e := if endIndex <? 0 then Z.max (endIndex + len) 0
           else Z.min endIndex len in
  if e - b <=? 0 then []
  else firstn (Z.to_nat (e - b)) (skipn (Z.to_nat b) s).

Definition i32_MAX_VALUE : Z := 2147483647.

(** [String#slice(beginIndex)]: the end defaults to [i32.MAX_VALUE]. *)
Definition slice_from (s : str) (beginIndex : Z) : str :=
  slice s beginIndex i32_MAX_VALUE.

(** Reduction of an arithmetic result to [u64]. *)
Definition u64 (z : Z) : Z := z mod 2 ^ 64.

(** ** The pure core shared by both variants *)

(** [const ONE_UNIT = 1_000_000_000;] *)
Definition ONE_UNIT : Z := 1000000000.

(** [Amount] of as-types; only its [value : u64] is used by the contract. *)
Record Amount : Type := new_Amount { Amount_value : Z }.

(** [Result<T>] of as-types: a value together with a nullable error. *)
Record Result (T : Type) : Type := new_Result { value : T; error : option str }.
Arguments new_Result {T} _ _.
Arguments value {T} _.
Arguments error {T} _.

(** [new Result(v)] *)
Definition Ok {T} (v : T) : Result T := new_Result v None.
(** [new Result(v, msg)] *)
Definition Err {T} (v : T) (msg : str) : Result T := new_Result v (Some msg).

(** [Result#isOk] is [!this.error]: the error is null or empty. *)
Definition isOk {T} (r : Result T) : bool :=
  match error r with
  | None => true
  | Some e => length e =? 0
  end%nat.

(** [function compute_cost(domain: string): Amount] *)
Definition compute_cost (domain : str) : Amount :=
  if str_length domain =? 2 then new_Amount (u64 (10000 * ONE_UNIT))
  else if str_length domain =? 3 then new_Amount (u64 (1000 * ONE_UNIT))
  else if (4 <=? str_length domain) && (str_length domain <=? 10)
       then new_Amount (u64 (100 * ONE_UNIT))
  else new_Amount (u64 (1 * ONE_UNIT)).

(** The test inside the loop of [is_valid_domain]:
    [(c >= 48 && c <= 57) || (c >= 97 && c <= 122) || c == 45]. *)
Definition valid_code (c : Z) : bool :=
  ((48 <=? c) && (c <=? 57)) || ((97 <=? c) && (c <=? 122)) || (c =? 45).

(** The [for] loop of [is_valid_domain], from index [i]; [fuel] bounds the
    number of iterations and is instantiated with the string's length. *)
Fixpoint is_valid_domain_loop (domain : str) (i : Z) (fuel : nat) : bool :=
  match fuel with
  | O => true
  | S fuel' =>
      if i <? str_length domain then
        let c := charCodeAt domain i in
        if negb (valid_code c) then false
        else is_valid_domain_loop domain (i + 1) fuel'
      else true
  end.

(** [function is_valid_domain(domain: string): bool] *)
Definition is_valid_domain (domain : str) : bool :=
  if str_length domain <? 2 then false
  else is_valid_domain_loop domain 0 (length domain).

(** Code unit of ["."]. *)
Definition DOT : Z := 46.

(** [function split_domain(domain: string): StaticArray<string>]; the
    two-element array is the pair [(parts[0], parts[1])]. *)
Definition split_domain (domain : str) : str * str :=
  let lastIndex := lastIndexOf domain DOT in
  if lastIndex =? -1 then ([], domain)
  else (slice domain 0 lastIndex, slice_from domain (lastIndex + 1)).

(** ** The host environment

    The SDK functions ([Storage], [Context], [call], [transferCoins])
    and the [Args] serializer live outside the contract; the contract only
    sequences them.  They are modelled here as far as the contract observes
    them. *)

(** [Address]: a wrapper around its string form. *)
Record Address : Type := new_Address { toString : str }.

(** A serialized [Args] buffer ([StaticArray<u8>]), kept as the sequence of
    values that were [add]ed rather than as their byte layout. *)
#[warnings="-register-all"]
Inductive item : Type :=
| ItemU8 (n : Z)
| ItemString (s : str)
| ItemAmount (a : Amount)
| ItemBytes (b : list item).

Definition buffer : Type := list item.

(** [Context.caller()] and [Context.transferredCoins()] of one invocation. *)
Record Context : Type :=
  new_Context { caller : Address; transferredCoins : Z }.

(** What persists between invocations: the key-value store of the contract
    and the coin transfers it has issued, most recent first. *)
Record world : Type :=
  new_world { Storage : gmap str str; transfers : list (Address * Z) }.

(** Why the host stopped an invocation. *)
Inductive abort : Type :=
| NotFound (key : str)   (* [Storage.get] of a key with no entry *)
| UnwrapFailed.          (* [Result#unwrap] of an error *)

(** An invocation either returns a value and commits a new world, or is
    aborted by the host, which discards every effect of the invocation. *)
Inductive outcome (A : Type) : Type :=
| Returned (a : A) (w : world)
| Aborted (e : abort).
Arguments Returned {A} _ _.
Arguments Aborted {A} _.

Definition host (A : Type) : Type := world -> outcome A.

Definition ret {A} (a : A) : host A := fun w => Returned a w.

Definition bind {A B} (c : host A) (k : A -> host B) : host B :=
  fun w =>
    match c w with
    | Returned a w' => k a w'
    | Aborted e => Aborted e
    end.

Notation "'let*' x ':=' c 'in' k" := (bind c (fun x => k))
  (at level 10, x name, c at level 100, k at level 200).

(** The world an invocation leaves behind. *)
Definition world_after {A} (w : world) (o : outcome A) : world :=
  match o with
  | Returned _ w' => w'
  | Aborted _ => w
  end.

(** [Result#unwrap] *)
Definition unwrap {T} (r : Result T) : host T :=
  fun w => if isOk r then Returned (value r) w else Aborted UnwrapFailed.

(** Modelled from the spec: [Storage.get] belongs to the SDK (massa-as-sdk)
    and is not part of the contract source.  The store is an external map
    read by label, and hosts differ on a label with no record.  This is the
    reading of a lookup whose miss is a failure of the lookup itself
    ([NotFound]), as the specification words it for [dns_resolve] and for
    the lookup of a delegated name: the host raises it inside
    [Storage.get] and the invocation ends there.  The owner lookups of
    [dns_free] and [dns_transfer] are also given over any [Storage.get]
    (modules [HostedBuffer] and [HostedTyped]), with
    [Storage_get_or_empty] as the reading in which a miss answers with an
    empty owner. *)
Definition Storage_get (key : str) : host str :=
  fun w =>
    match Storage w !! key with
    | Some v => Returned v w
    | None => Aborted (NotFound key)
    end.

(** [Storage.set(key, value)]: creates or overwrites the entry. *)
Definition Storage_set (key v : str) : host unit :=
  fun w => Returned tt (new_world (<[key := v]> (Storage w)) (transfers w)).

(** [Storage.del(key)]: removes the entry. *)
Definition Storage_del (key : str) : host unit :=
  fun w => Returned tt (new_world (delete key (Storage w)) (transfers w)).

(** Modelled from the spec: [transferCoins(to, amount)] belongs to the SDK.
    The ledger is external and moves balances atomically; the contract only
    issues the transfer, which is recorded here. *)
Definition transferCoins (to : Address) (amount : Z) : host unit :=
  fun w => Returned tt (new_world (Storage w) ((to, amount) :: transfers w)).

(** [Args#nextString] of as-types, on a buffer kept as the values that
    were added: the next value if it is a string, together with the rest of
    the buffer, and an error result on an exhausted buffer.  A request
    whose next value was added as something else than a string is outside
    this model (the byte-level parser would reread its bytes); every
    request considered below is made of strings or is empty. *)
Definition nextString (a : buffer) : Result str * buffer :=
  match a with
  | ItemString s :: rest => (Ok s, rest)
  | _ => (Err [] (lit "can't deserialize string from given argument"), a)
  end.

(** [Amount#add] of as-types: the sum, or an error result when it does not
    fit [u64]. *)
Definition Amount_add (a b : Amount) : Result Amount :=
  let s := Amount_value a + Amount_value b in
  if s <? 2 ^ 64 then Ok (new_Amount s)
  else Err (new_Amount 0) (lit "overflow").

(** Comparison of two strings with [!=]. *)
Definition str_ne (a b : str) : bool := negb (bool_decide (a = b)).

(** The four error messages of the contract. *)
Definition MSG_NOT_IMPLEMENTED : str := lit "Not implemented yet.".
Definition MSG_INVALID_DOMAIN : str := lit "Invalid domain name.".
Definition MSG_NOT_ENOUGH_COINS : str :=
  lit "Not enough coins to pay for the domain name.".
Definition MSG_ONLY_OWNER : str :=
  lit "Only the owner of the domain can free it.".

(** Modelled from the spec: the SDK's [call(address, function, args, coins)]
    is a blocking request to another contract.  Its behaviour is a parameter
    of the model: whatever the called contract does to the world and
    returns, or an abort. *)
Definition call_t : Type := Address -> str -> buffer -> Z -> host buffer.

(** ** The buffer variant *)

Module Buffer.
Section Contract.
Variable call : call_t.
Variable ctx : Context.

(** [function serializeResult<T>(result: Result<T>): StaticArray<u8>];
    [add] is [args.add<T>]. *)
Definition serializeResult {T} (add : T -> item) (result : Result T) : buffer :=
  if isOk result then [ItemU8 0; add (value result)]
  else [ItemU8 1; ItemString (default [] (error result))].

Definition dns_resolve (args : buffer) : host buffer :=
  let '(r, args_decoded) := nextString args in
  let* full_domain := unwrap r in
  let domain_array := split_domain full_domain in
  if str_ne domain_array.1 [] then
    let* address := Storage_get domain_array.2 in
    let args := [ItemString domain_array.1] in
    call (new_Address address) (lit "dns_resolve") args (transferredCoins ctx)
  else
    let* v := Storage_get domain_array.2 in
    ret (serializeResult ItemString (Ok v)).

Definition dns_alloc_cost (args : buffer) : host buffer :=
  let '(r, args_decoded) := nextString args in
  let* full_domain := unwrap r in
  let '(r, args_decoded) := nextString args_decoded in
  let* a := unwrap r in
  let address := new_Address a in
  let domain_array := split_domain full_domain in
  let cost := new_Amount 0 in
  if str_ne domain_array.1 [] then
    let* address := Storage_get domain_array.2 in
    let args := [ItemString domain_array.1] in
    call (new_Address address) (lit "dns_alloc_cost") args (transferredCoins ctx)
  else
    let* cost := unwrap (Amount_add cost (compute_cost domain_array.2)) in
    if negb (is_valid_domain domain_array.2) then
      ret (serializeResult ItemAmount (Err (new_Amount 0) MSG_INVALID_DOMAIN))
    else
      ret (serializeResult ItemAmount (Ok cost)).

Definition dns_alloc (args : buffer) : host buffer :=
  let '(r, args_decoded) := nextString args in
  let* full_domain := unwrap r in
  let '(r, args_decoded) := nextString args_decoded in
  let* a := unwrap r in
  let address := new_Address a in
  let domain_array := split_domain full_domain in
  if str_ne domain_array.1 [] then
    let* address := Storage_get domain_array.2 in
    let args := [ItemString domain_array.1] in
    call (new_Address address) (lit "dns_alloc") args (transferredCoins ctx)
  else
    let cost := compute_cost domain_array.2 in
    if transferredCoins ctx <? Amount_value cost then
      ret (serializeResult ItemBytes (Err [] MSG_NOT_ENOUGH_COINS))
    else
      let* _ := Storage_set domain_array.2 (toString address) in
      ret (serializeResult ItemBytes (Ok [])).

Definition dns_free (args : buffer) : host buffer :=
  let '(r, args_decoded) := nextString args in
  let* full_domain := unwrap r in
  let domain_array := split_domain full_domain in
  if str_ne domain_array.1 [] then
    let* address := Storage_get domain_array.2 in
    let args := [ItemString domain_array.1] in
    call (new_Address address) (lit "dns_free") args (transferredCoins ctx)
  else
    let* address := Storage_get domain_array.2 in
    if str_ne address (toString (caller ctx)) then
      ret (serializeResult ItemBytes (Err [] MSG_ONLY_OWNER))
    else
      let* _ := Storage_del domain_array.2 in
      let cost := compute_cost domain_array.2 in
      let* _ := transferCoins (caller ctx) (Amount_value cost / 2) in
      ret (serializeResult ItemBytes (Ok [])).

Definition dns_transfer (args : buffer) : host buffer :=
  let '(r, args_decoded) := nextString args in
  let* full_domain := unwrap r in
  let '(r, args_decoded) := nextString args_decoded in
  let* a := unwrap r in
  let new_addr := new_Address a in
  let domain_array := split_domain full_domain in
  if str_ne domain_array.1 [] then
    let* address := Storage_get domain_array.2 in
    let args := [ItemString domain_array.1] in
    call (new_Address address) (lit "dns_transfer") args (transferredCoins ctx)
  else
    let* address := Storage_get domain_array.2 in
    if str_ne address (toString (caller ctx)) then
      ret (serializeResult ItemBytes (Err [] MSG_ONLY_OWNER))
    else
      let* _ := Storage_set domain_array.2 (toString new_addr) in
      ret (serializeResult ItemBytes (Ok [])).
End Contract.
End Buffer.

(** ** The typed variant *)

Module Typed.
Section Contract.
Variable call : call_t.
Variable ctx : Context.

Definition dns_resolve (args : buffer) : host (Result Address) :=
  let '(r, args_decoded) := nextString args in
  let* full_domain := unwrap r in
  let domain_array := split_domain full_domain in
  if str_ne domain_array.1 [] then
    let* address := Storage_get domain_array.2 in
    let args := [ItemString domain_array.1] in
    ret (Err (new_Address address) MSG_NOT_IMPLEMENTED)
  else
    let* v := Storage_get domain_array.2 in
    ret (Ok (new_Address v)).

Definition dns_alloc_cost (args : buffer) : host (Result Amount) :=
  let '(r, args_decoded) := nextString args in
  let* full_domain := unwrap r in
  let '(r, args_decoded) := nextString args_decoded in
  let* a := unwrap r in
  let address := new_Address a in
  let domain_array := split_domain full_domain in
  let cost := new_Amount 0 in
  let* _ :=
    if str_ne domain_array.1 [] then
      let* address := Storage_get domain_array.2 in
      let args := [ItemString domain_array.1] in
      ret tt
    else ret tt in
  let* cost := unwrap (Amount_add cost (compute_cost domain_array.2)) in
  if negb (is_valid_domain domain_array.2) then
    ret (Err (new_Amount 0) MSG_INVALID_DOMAIN)
  else
    ret (Ok cost).

Definition dns_alloc (args : buffer) : host (Result buffer) :=
  let '(r, args_decoded) := nextString args in
  let* full_domain := unwrap r in
  let '(r, args_decoded) := nextString args_decoded in
  let* a := unwrap r in
  let address := new_Address a in
  let domain_array := split_domain full_domain in
  if str_ne domain_array.1 [] then
    let* address := Storage_get domain_array.2 in
    let args := [ItemString domain_array.1] in
    let* b := call (new_Address address) (lit "dns_alloc") args
                   (transferredCoins ctx) in
    ret (Ok b)
  else
    let cost := compute_cost domain_array.2 in
    if transferredCoins ctx <? Amount_value cost then
      ret (Err [] MSG_NOT_ENOUGH_COINS)
    else
      let* _ := Storage_set domain_array.2 (toString address) in
      ret (Ok []).

Definition dns_free (args : buffer) : host (Result buffer) :=
  let '(r, args_decoded) := nextString args in
  let* full_domain := unwrap r in
  let domain_array := split_domain full_domain in
  if str_ne domain_array.1 [] then
    let* address := Storage_get domain_array.2 in
    let args := [ItemString domain_array.1] in
    let* b := call (new_Address address) (lit "dns_free") args
                   (transferredCoins ctx) in
    ret (Ok b)
  else
    let* address := Storage_get domain_array.2 in
    if str_ne address (toString (caller ctx)) then
      ret (Err [] MSG_ONLY_OWNER)
    else
      let* _ := Storage_del domain_array.2 in
      let cost := compute_cost domain_array.2 in
      let* _ := transferCoins (caller ctx) (Amount_value cost / 2) in
      ret (Ok []).

Definition dns_transfer (args : buffer) : host (Result buffer) :=
  let '(r, args_decoded) := nextString args in
  let* full_domain := unwrap r in
  let '(r, args_decoded) := nextString args_decoded in
  let* a := unwrap r in
  let new_addr := new_Address a in
  let domain_array := split_domain full_domain in
  if str_ne domain_array.1 [] then
    let* address := Storage_get domain_array.2 in
    let args := [ItemString domain_array.1] in
    let* b := call (new_Address address) (lit "dns_transfer") args
                   (transferredCoins ctx) in
    ret (Ok b)
  else
    let* address := Storage_get domain_array.2 in
    if str_ne address (toString (caller ctx)) then
      ret (Err [] MSG_ONLY_OWNER)
    else
      let* _ := Storage_set domain_array.2 (toString new_addr) in
      ret (Ok []).
End Contract.
End Typed.

(** ** The owner-gated operations over any [Storage.get]

    The text of [dns_free] and [dns_transfer] once more, with the SDK's
    [Storage.get] as a parameter [get] of the contract instead of a fixed
    reading of it. *)

(** Modelled from the spec: a [Storage.get] for which a label with no record
    is owned by no one: the lookup answers with an empty owner string, which
    the contract then compares with the caller. *)
Definition Storage_get_or_empty (key : str) : host str :=
  fun w =>
    match Storage w !! key with
    | Some v => Returned v w
    | None => Returned [] w
    end.

Module HostedBuffer.
Section Contract.
Variable get : str -> host str.
Variable call : call_t.
Variable ctx : Context.

Definition dns_free (args : buffer) : host buffer :=
  let '(r, args_decoded) := nextString args in
  let* full_domain := unwrap r in
  let domain_array := split_domain full_domain in
  if str_ne domain_array.1 [] then
    let* address := get domain_array.2 in
    let args := [ItemString domain_array.1] in
    call (new_Address address) (lit "dns_free") args (transferredCoins ctx)
  else
    let* address := get domain_array.2 in
    if str_ne address (toString (caller ctx)) then
      ret (Buffer.serializeResult ItemBytes (Err [] MSG_ONLY_OWNER))
    else
      let* _ := Storage_del domain_array.2 in
      let cost := compute_cost domain_array.2 in
      let* _ := transferCoins (caller ctx) (Amount_value cost / 2) in
      ret (Buffer.serializeResult ItemBytes (Ok [])).

Definition dns_transfer (args : buffer) : host buffer :=
  let '(r, args_decoded) := nextString args in
  let* full_domain := unwrap r in
  let '(r, args_decoded) := nextString args_decoded in
  let* a := unwrap r in
  let new_addr := new_Address a in
  let domain_array := split_domain full_domain in
  if str_ne domain_array.1 [] then
    let* address := get domain_array.2 in
    let args := [ItemString domain_array.1] in
    call (new_Address address) (lit "dns_transfer") args (transferredCoins ctx)
  else
    let* address := get domain_array.2 in
    if str_ne address (toString (caller ctx)) then
      ret (Buffer.serializeResult ItemBytes (Err [] MSG_ONLY_OWNER))
    else
      let* _ := Storage_set domain_array.2 (toString new_addr) in
      ret (Buffer.serializeResult ItemBytes (Ok [])).
End Contract.
End HostedBuffer.

Module HostedTyped.
Section Contract.
Variable get : str -> host str.
Variable call : call_t.
Variable ctx : Context.

Definition dns_free (args : buffer) : host (Result buffer) :=
  let '(r, args_decoded) := nextString args in
  let* full_domain := unwrap r in
  let domain_array := split_domain full_domain in
  if str_ne domain_array.1 [] then
    let* address := get domain_array.2 in
    let args := [ItemString domain_array.1] in
    let* b := call (new_Address address) (lit "dns_free") args
                   (transferredCoins ctx) in
    ret (Ok b)
  else
    let* address := get domain_array.2 in
    if str_ne address (toString (caller ctx)) then
      ret (Err [] MSG_ONLY_OWNER)
    else
      let* _ := Storage_del domain_array.2 in
      let cost := compute_cost domain_array.2 in
      let* _ := transferCoins (caller ctx) (Amount_value cost / 2) in
      ret (Ok []).

Definition dns_transfer (args : buffer) : host (Result buffer) :=
  let '(r, args_decoded) := nextString args in
  let* full_domain := unwrap r in
  let '(r, args_decoded) := nextString args_decoded in
  let* a := unwrap r in
  let new_addr := new_Address a in
  let domain_array := split_domain full_domain in
  if str_ne domain_array.1 [] then
    let* address := get domain_array.2 in
    let args := [ItemString domain_array.1] in
    let* b := call (new_Address address) (lit "dns_transfer") args
                   (transferredCoins ctx) in
    ret (Ok b)
  else
    let* address := get domain_array.2 in
    if str_ne address (toString (caller ctx)) then
      ret (Err [] MSG_ONLY_OWNER)
    else
      let* _ := Storage_set domain_array.2 (toString new_addr) in
      ret (Ok []).
End Contract.
End HostedTyped.

(** ** Vocabulary of the specification *)

(** A character allowed in a label: a-z, 0-9 or the hyphen. *)
Definition label_char (c : Z) : Prop :=
  97 <= c <= 122 \/ 48 <= c <= 57 \/ c = 45.

(** A serialized failure carrying [msg], and a serialized success carrying
    the value [v]. *)
Definition failure_buffer (msg : str) : buffer := [ItemU8 1; ItemString msg].
Definition success_buffer (v : item) : buffer := [ItemU8 0; v].

(** A callee that ignores its request and answers with a fixed buffer. *)
Definition answering (b : buffer) : call_t := fun _ _ _ _ => ret b.

(** A world holding exactly the given records and no issued transfer. *)
Definition world_of (records : list (str * str)) : world :=
  new_world (list_to_map records) [].

(** The cost as a function of the length alone. *)
Definition tier (len : Z) : Z :=
  if len =? 2 then 10000 * ONE_UNIT
  else if len =? 3 then 1000 * ONE_UNIT
  else if (4 <=? len) && (len <=? 10) then 100 * ONE_UNIT
  else 1 * ONE_UNIT.

(** The world after [label] has been recorded for [owner]. *)
Definition recorded (label owner : str) (w : world) : world :=
  new_world (<[label := owner]> (Storage w)) (transfers w).

(** The world after the record of [label] has been deleted and [amount]
    handed to the ledger for [to]. *)
Definition released (label : str) (to : Address) (amount : Z) (w : world) : world :=
  new_world (delete label (Storage w)) ((to, amount) :: transfers w).

(** Both variants of [dns_free] and [dns_transfer] answered with the
    owner-only refusal and left the world [w] as it was. *)
Definition owner_only_refusal
    (free_b transfer_b : outcome buffer)
    (free_t transfer_t : outcome (Result buffer)) (w : world) : Prop :=
  free_b
  = Returned (failure_buffer (lit "Only the owner of the domain can free it.")) w
  /\
  transfer_b
  = Returned (failure_buffer (lit "Only the owner of the domain can free it.")) w
  /\
  free_t = Returned (Err [] (lit "Only the owner of the domain can free it.")) w
  /\
  transfer_t
  = Returned (Err [] (lit "Only the owner of the domain can free it.")) w.


(** What the quote is when it is computed locally from [label]. *)
Definition local_quote (label : str) : Result Amount :=
  if is_valid_domain label then Ok (compute_cost label)
  else Err (new_Amount 0) MSG_INVALID_DOMAIN.

(** The typed variant wraps whatever buffer the callee returned. *)
Definition wrapped (o : outcome buffer) : outcome (Result buffer) :=
  match o with
  | Returned b w' => Returned (Ok b) w'
  | Aborted e => Aborted e
  end.

(** The outcome of an operation of the typed variant, with its result
    passed through [serializeResult]. *)
Definition serialized {T} (add : T -> item) (o : outcome (Result T)) : outcome buffer :=
  match o with
  | Returned r w' => Returned (Buffer.serializeResult add r) w'
  | Aborted e => Aborted e
  end.

(** ** Facts about the string primitives *)

Lemma str_length_nonneg (s : str) : 0 <= str_length s.
Proof. unfold str_length. lia. Qed.

Lemma str_length_app (a b : str) :
  str_length (a ++ b) = str_length a + str_length b.
Proof. unfold str_length. rewrite length_app. lia. Qed.

Lemma str_length_cons (x : Z) (s : str) :
  str_length (x :: s) = 1 + str_length s.
Proof. unfold str_length. cbn [length]. lia. Qed.

(** Reading the unit that follows a prefix. *)
Lemma charCodeAt_middle (pre suf : str) (x : Z) :
  charCodeAt (pre ++ x :: suf) (str_length pre) = x.
Proof.
  unfold charCodeAt.
  rewrite str_length_app, str_length_cons.
  pose proof (str_length_nonneg pre) as Hp.
  pose proof (str_length_nonneg suf) as Hs.
  replace (str_length pre <? 0) with false by (symmetry; apply Z.ltb_ge; lia).
  replace (str_length pre + (1 + str_length suf) <=? str_length pre)
    with false by (symmetry; apply Z.leb_gt; lia).
  cbn [orb]. unfold str_length. rewrite Nat2Z.id.
  rewrite app_nth2 by lia.
  replace (length pre - length pre)%nat with O by lia.
  reflexivity.
Qed.

(** ** The cost model *)

Lemma cost_values :
  u64 (10000 * ONE_UNIT) = 10000 * ONE_UNIT /\
  u64 (1000 * ONE_UNIT) = 1000 * ONE_UNIT /\
  u64 (100 * ONE_UNIT) = 100 * ONE_UNIT /\
  u64 (1 * ONE_UNIT) = 1 * ONE_UNIT.
Proof. repeat split; reflexivity. Qed.

Lemma compute_cost_tier (domain : str) :
  Amount_value (compute_cost domain) = tier (str_length domain).
Proof.
  unfold compute_cost, tier.
  destruct cost_values as (E1 & E2 & E3 & E4).
  repeat case_match; cbn [Amount_value]; assumption.
Qed.

Lemma tier_cases (len : Z) :
  (len = 2 /\ tier len = 10000 * ONE_UNIT) \/
  (len = 3 /\ tier len = 1000 * ONE_UNIT) \/
  (4 <= len <= 10 /\ tier len = 100 * ONE_UNIT) \/
  ((len < 2 \/ 11 <= len) /\ tier len = 1 * ONE_UNIT).
Proof.
  unfold tier.
  destruct (Z.eqb_spec len 2); [left; auto|].
  destruct (Z.eqb_spec len 3); [right; left; auto|].
  destruct (Z.leb_spec 4 len), (Z.leb_spec len 10); cbn [andb];
    [right; right; left; split; [lia|reflexivity] | | |];
    right; right; right; (split; [lia|reflexivity]).
Qed.

Lemma compute_cost_pos (domain : str) :
  0 < Amount_value (compute_cost domain) < 2 ^ 64.
Proof.
  rewrite compute_cost_tier.
  destruct (tier_cases (str_length domain)) as [[_ E]|[[_ E]|[[_ E]|[_ E]]]];
    rewrite E; unfold ONE_UNIT; lia.
Qed.

(** C5: the cost of a label is 10,000 units at length 2, 1,000 units at
    length 3, 100 units at lengths 4 to 10 and 1 unit from length 11 on,
    one unit being [ONE_UNIT] = 1,000,000,000. *)
Theorem C5_compute_cost_tiers (domain : str) :
  ONE_UNIT = 1000000000 /\
  (str_length domain = 2 ->
   Amount_value (compute_cost domain) = 10000 * ONE_UNIT) /\
  (str_length domain = 3 ->
   Amount_value (compute_cost domain) = 1000 * ONE_UNIT) /\
  (4 <= str_length domain <= 10 ->
   Amount_value (compute_cost domain) = 100 * ONE_UNIT) /\
  (11 <= str_length domain ->
   Amount_value (compute_cost domain) = 1 * ONE_UNIT).
Proof.
  rewrite compute_cost_tier.
  split; [reflexivity|].
  destruct (tier_cases (str_length domain)) as [[L E]|[[L E]|[[L E]|[L E]]]];
    rewrite E; repeat split; intros; solve [reflexivity | lia].
Qed.

Lemma C5_compute_cost_tiers_witness :
  Amount_value (compute_cost (lit "ab")) = 10000 * ONE_UNIT /\
  Amount_value (compute_cost (lit "abc")) = 1000 * ONE_UNIT /\
  Amount_value (compute_cost (lit "abcd")) = 100 * ONE_UNIT /\
  Amount_value (compute_cost (lit "abcdefghij")) = 100 * ONE_UNIT /\
  Amount_value (compute_cost (lit "abcdefghijk")) = 1 * ONE_UNIT.
Proof.
  split; [|split; [|split; [|split]]].
  - apply (C5_compute_cost_tiers (lit "ab")). reflexivity.
  - apply (C5_compute_cost_tiers (lit "abc")). reflexivity.
  - apply (C5_compute_cost_tiers (lit "abcd")). vm_compute. split; discriminate.
  - apply (C5_compute_cost_tiers (lit "abcdefghij")). vm_compute. split; discriminate.
  - apply (C5_compute_cost_tiers (lit "abcdefghijk")). vm_compute. discriminate.
Defined.

(** C9, as the code has it: the cost is defined for every length, zero
    included; lengths 0 and 1 fall in the last branch and cost 1 unit, and
    from length 2 on a longer label never costs more than a shorter one. *)
Theorem C9_compute_cost_antitone_from_two (a b : str) :
  (str_length a < 2 -> Amount_value (compute_cost a) = 1 * ONE_UNIT) /\
  (2 <= str_length a <= str_length b ->
   Amount_value (compute_cost b) <= Amount_value (compute_cost a)).
Proof.
  rewrite !compute_cost_tier.
  destruct (tier_cases (str_length a)) as [[La Ea]|[[La Ea]|[[La Ea]|[La Ea]]]];
  destruct (tier_cases (str_length b)) as [[Lb Eb]|[[Lb Eb]|[[Lb Eb]|[Lb Eb]]]];
    rewrite Ea, Eb; unfold ONE_UNIT; split; intros; lia.
Qed.

Lemma C9_compute_cost_antitone_from_two_witness :
  Amount_value (compute_cost (lit "")) = 1 * ONE_UNIT /\
  Amount_value (compute_cost (lit "abcd")) <= Amount_value (compute_cost (lit "ab")).
Proof.
  split.
  - apply (C9_compute_cost_antitone_from_two (lit "") (lit "")). reflexivity.
  - apply (C9_compute_cost_antitone_from_two (lit "ab") (lit "abcd")).
    vm_compute. split; discriminate.
Defined.

(** C9 as stated fails: ["a"] is shorter than ["ab"] and costs less. *)
Lemma C9_longer_label_costs_more :
  ~ (forall a b : str,
       str_length a <= str_length b ->
       Amount_value (compute_cost b) <= Amount_value (compute_cost a)).
Proof.
  intros H.
  assert (Amount_value (compute_cost (lit "ab"))
          <= Amount_value (compute_cost (lit "a"))) as Hle
    by (apply H; vm_compute; discriminate).
  vm_compute in Hle. apply Hle. reflexivity.
Qed.

(** ** Label validity *)

Lemma valid_code_label_char (c : Z) : valid_code c = true <-> label_char c.
Proof. unfold valid_code, label_char. lia. Qed.

Lemma forallb_valid_code (s : str) :
  forallb valid_code s = true <-> Forall label_char s.
Proof.
  induction s as [|x s IH]; cbn [forallb].
  - split; [constructor | reflexivity].
  - rewrite andb_true_iff, Forall_cons_iff, IH, valid_code_label_char.
    reflexivity.
Qed.

(** The loop, started after a prefix [pre] with one iteration left for each
    unit of [suf], checks exactly the units of [suf]. *)
Lemma is_valid_domain_loop_suffix (suf pre : str) :
  is_valid_domain_loop (pre ++ suf) (str_length pre) (length suf)
  = forallb valid_code suf.
Proof.
  revert pre. induction suf as [|x suf IH]; intros pre.
  - reflexivity.
  - cbn [is_valid_domain_loop forallb length].
    replace (str_length pre <? str_length (pre ++ x :: suf)) with true.
    2:{ symmetry. apply Z.ltb_lt. rewrite str_length_app, str_length_cons.
        pose proof (str_length_nonneg suf). lia. }
    rewrite charCodeAt_middle.
    destruct (valid_code x); cbn [negb andb]; [|reflexivity].
    replace (pre ++ x :: suf) with ((pre ++ [x]) ++ suf)
      by (rewrite <- app_assoc; reflexivity).
    replace (str_length pre + 1) with (str_length (pre ++ [x]))
      by (rewrite str_length_app; reflexivity).
    apply IH.
Qed.

Lemma is_valid_domain_forallb (domain : str) :
  is_valid_domain domain = negb (str_length domain <? 2) && forallb valid_code domain.
Proof.
  unfold is_valid_domain.
  destruct (str_length domain <? 2); [reflexivity|].
  exact (is_valid_domain_loop_suffix domain []).
Qed.

(** C8: [is_valid_domain] accepts a label exactly when it has at least two
    characters and all of them are lowercase ASCII letters, digits or
    hyphens; ["ab"] is accepted, ["a"], ["AB"] and ["a.b"] are rejected. *)
Theorem C8_is_valid_domain_iff (label : str) :
  (is_valid_domain label = true <->
   2 <= str_length label /\ Forall label_char label) /\
  is_valid_domain (lit "ab") = true /\
  is_valid_domain (lit "a") = false /\
  is_valid_domain (lit "AB") = false /\
  is_valid_domain (lit "a.b") = false.
Proof.
  split; [|repeat split].
  rewrite is_valid_domain_forallb, andb_true_iff, negb_true_iff,
    forallb_valid_code, Z.ltb_ge.
  reflexivity.
Qed.

(** ** Splitting a name *)

Lemma lastIndexOf_from_absent (c : Z) (s : str) (i found : Z) :
  ~ In c s -> lastIndexOf_from c s i found = found.
Proof.
  revert i found. induction s as [|x s IH]; intros i found Hc; [reflexivity|].
  cbn [lastIndexOf_from].
  destruct (Z.eqb_spec x c) as [->|_].
  - exfalso. apply Hc. left. reflexivity.
  - apply IH. intros Hin. apply Hc. right. exact Hin.
Qed.

Lemma lastIndexOf_from_last (c : Z) (pre suf : str) (i found : Z) :
  ~ In c suf ->
  lastIndexOf_from c (pre ++ c :: suf) i found = i + str_length pre.
Proof.
  intros Hc. revert i found.
  induction pre as [|x pre IH]; intros i found.
  - cbn [app lastIndexOf_from]. rewrite Z.eqb_refl.
    rewrite lastIndexOf_from_absent by exact Hc.
    unfold str_length. cbn [length]. lia.
  - cbn [app lastIndexOf_from]. rewrite IH, str_length_cons. lia.
Qed.

Lemma slice_prefix (pre suf : str) :
  slice (pre ++ suf) 0 (str_length pre) = pre.
Proof.
  unfold slice. rewrite str_length_app.
  pose proof (str_length_nonneg pre) as Hp.
  pose proof (str_length_nonneg suf) as Hs.
  replace (0 <? 0) with false by reflexivity.
  replace (str_length pre <? 0) with false by (symmetry; apply Z.ltb_ge; lia).
  rewrite Z.min_l, Z.min_l, Z.sub_0_r by lia.
  destruct (Z.leb_spec (str_length pre) 0) as [H0|H0].
  - destruct pre; [reflexivity|]. rewrite str_length_cons in H0.
    pose proof (str_length_nonneg pre). lia.
  - unfold str_length. rewrite Nat2Z.id.
    change (Z.to_nat 0) with O. rewrite drop_0.
    apply take_app_length.
Qed.

Lemma slice_from_suffix (pre suf : str) :
  str_length (pre ++ suf) <= i32_MAX_VALUE ->
  slice_from (pre ++ suf) (str_length pre) = suf.
Proof.
  intros Hmax. unfold slice_from, slice. revert Hmax.
  rewrite str_length_app.
  pose proof (str_length_nonneg pre) as Hp.
  pose proof (str_length_nonneg suf) as Hs.
  intros Hmax.
  replace (str_length pre <? 0) with false by (symmetry; apply Z.ltb_ge; lia).
  replace (i32_MAX_VALUE <? 0) with false by reflexivity.
  rewrite (Z.min_r i32_MAX_VALUE) by lia.
  rewrite (Z.min_l (str_length pre)) by lia.
  replace (str_length pre + str_length suf - str_length pre)
    with (str_length suf) by lia.
  destruct (Z.leb_spec (str_length suf) 0) as [H0|H0].
  - destruct suf; [reflexivity|]. rewrite str_length_cons in H0.
    pose proof (str_length_nonneg suf). lia.
  - unfold str_length. rewrite !Nat2Z.id.
    rewrite drop_app_length. apply firstn_all.
Qed.

(** A name without a dot is its own label and has no remainder. *)
Lemma split_domain_plain (label : str) :
  ~ In DOT label -> split_domain label = ([], label).
Proof.
  intros Hc. unfold split_domain, lastIndexOf.
  rewrite lastIndexOf_from_absent by exact Hc. reflexivity.
Qed.

(** A dotted name splits at its last dot. *)
Lemma split_domain_dotted (remainder label : str) :
  ~ In DOT label ->
  str_length (remainder ++ DOT :: label) <= i32_MAX_VALUE ->
  split_domain (remainder ++ DOT :: label) = (remainder, label).
Proof.
  intros Hc Hmax. unfold split_domain, lastIndexOf.
  rewrite lastIndexOf_from_last by exact Hc.
  pose proof (str_length_nonneg remainder) as Hr.
  replace (0 + str_length remainder =? -1) with false
    by (symmetry; apply Z.eqb_neq; lia).
  f_equal.
  - rewrite Z.add_0_l. apply slice_prefix.
  - replace (remainder ++ DOT :: label) with ((remainder ++ [DOT]) ++ label) in *
      by (rewrite <- app_assoc; reflexivity).
    replace (0 + str_length remainder + 1) with (str_length (remainder ++ [DOT]))
      by (rewrite str_length_app; reflexivity).
    apply slice_from_suffix. exact Hmax.
Qed.

(** ** Running one invocation *)

Lemma str_ne_false (a b : str) : str_ne a b = false <-> a = b.
Proof.
  unfold str_ne. rewrite negb_false_iff, bool_decide_eq_true. reflexivity.
Qed.

Lemma str_ne_true (a b : str) : str_ne a b = true <-> a <> b.
Proof.
  unfold str_ne. rewrite negb_true_iff, bool_decide_eq_false. reflexivity.
Qed.

Lemma str_ne_refl (a : str) : str_ne a a = false.
Proof. apply str_ne_false. reflexivity. Qed.

Lemma unwrap_Ok {T} (v : T) (w : world) : unwrap (Ok v) w = Returned v w.
Proof. reflexivity. Qed.

(** Adding a cost to the zero amount cannot overflow. *)
Lemma Amount_add_zero_cost (label : str) :
  Amount_add (new_Amount 0) (compute_cost label) = Ok (compute_cost label).
Proof.
  unfold Amount_add. cbn [Amount_value].
  pose proof (compute_cost_pos label) as [_ Hlt].
  rewrite Z.add_0_l.
  replace (Amount_value (compute_cost label) <? 2 ^ 64) with true
    by (symmetry; apply Z.ltb_lt; exact Hlt).
  destruct (compute_cost label). reflexivity.
Qed.

(** Exposes the sequencing of an operation whose name has been split. *)
Ltac run_with Hsplit :=
  cbn [nextString]; unfold bind at 1; rewrite ?unwrap_Ok;
  repeat (unfold bind at 1; rewrite ?unwrap_Ok);
  rewrite Hsplit; cbn [fst snd].

(** ** Allocation *)

Lemma Buffer_dns_alloc_terminal call ctx w full_domain label owner :
  split_domain full_domain = ([], label) ->
  Buffer.dns_alloc call ctx [ItemString full_domain; ItemString owner] w =
  if transferredCoins ctx <? Amount_value (compute_cost label)
  then Returned (failure_buffer MSG_NOT_ENOUGH_COINS) w
  else Returned (success_buffer (ItemBytes [])) (recorded label owner w).
Proof.
  intros Hsplit. unfold Buffer.dns_alloc. run_with Hsplit.
  rewrite str_ne_refl.
  destruct (transferredCoins ctx <? Amount_value (compute_cost label));
    reflexivity.
Qed.

Lemma Typed_dns_alloc_terminal call ctx w full_domain label owner :
  split_domain full_domain = ([], label) ->
  Typed.dns_alloc call ctx [ItemString full_domain; ItemString owner] w =
  if transferredCoins ctx <? Amount_value (compute_cost label)
  then Returned (Err [] MSG_NOT_ENOUGH_COINS) w
  else Returned (Ok []) (recorded label owner w).
Proof.
  intros Hsplit. unfold Typed.dns_alloc. run_with Hsplit.
  rewrite str_ne_refl.
  destruct (transferredCoins ctx <? Amount_value (compute_cost label));
    reflexivity.
Qed.

(** C3: on a terminal name, a payment strictly below the cost of the label
    makes [dns_alloc] fail with "Not enough coins to pay for the domain
    name." and changes nothing; a payment of at least the cost makes it
    succeed (and record the owner). *)
Theorem C3_dns_alloc_payment_check call ctx w full_domain label owner :
  split_domain full_domain = ([], label) ->
  (transferredCoins ctx < Amount_value (compute_cost label) ->
   Buffer.dns_alloc call ctx [ItemString full_domain; ItemString owner] w
   = Returned
       (failure_buffer (lit "Not enough coins to pay for the domain name.")) w
   /\
   Typed.dns_alloc call ctx [ItemString full_domain; ItemString owner] w
   = Returned
       (Err [] (lit "Not enough coins to pay for the domain name.")) w)
  /\
  (Amount_value (compute_cost label) <= transferredCoins ctx ->
   Buffer.dns_alloc call ctx [ItemString full_domain; ItemString owner] w
   = Returned (success_buffer (ItemBytes [])) (recorded label owner w)
   /\
   Typed.dns_alloc call ctx [ItemString full_domain; ItemString owner] w
   = Returned (Ok []) (recorded label owner w)).
Proof.
  intros Hsplit.
  rewrite (Buffer_dns_alloc_terminal call ctx w full_domain label owner Hsplit).
  rewrite (Typed_dns_alloc_terminal call ctx w full_domain label owner Hsplit).
  destruct (Z.ltb_spec (transferredCoins ctx) (Amount_value (compute_cost label)));
    split; intros; solve [lia | split; reflexivity].
Qed.

Lemma C3_dns_alloc_payment_check_witness :
  let full := lit "foo" in
  let short := new_Context (new_Address (lit "A")) (1000 * ONE_UNIT - 1) in
  let exact := new_Context (new_Address (lit "A")) (1000 * ONE_UNIT) in
  let w := world_of [] in
  (Buffer.dns_alloc (answering []) short [ItemString full; ItemString (lit "A")] w
   = Returned
       (failure_buffer (lit "Not enough coins to pay for the domain name.")) w
   /\
   Typed.dns_alloc (answering []) short [ItemString full; ItemString (lit "A")] w
   = Returned
       (Err [] (lit "Not enough coins to pay for the domain name.")) w)
  /\
  (Buffer.dns_alloc (answering []) exact [ItemString full; ItemString (lit "A")] w
   = Returned (success_buffer (ItemBytes [])) (recorded full (lit "A") w)
   /\
   Typed.dns_alloc (answering []) exact [ItemString full; ItemString (lit "A")] w
   = Returned (Ok []) (recorded full (lit "A") w)).
Proof.
  cbv zeta. split.
  - apply (C3_dns_alloc_payment_check (answering [])
             (new_Context (new_Address (lit "A")) (1000 * ONE_UNIT - 1))
             (world_of []) (lit "foo") (lit "foo") (lit "A")).
    + reflexivity.
    + vm_compute. reflexivity.
  - apply (C3_dns_alloc_payment_check (answering [])
             (new_Context (new_Address (lit "A")) (1000 * ONE_UNIT))
             (world_of []) (lit "foo") (lit "foo") (lit "A")).
    + reflexivity.
    + vm_compute. discriminate.
Defined.

(** C10: [dns_alloc] never consults [is_valid_domain].  On a terminal name
    whose label is invalid it still succeeds and stores the record as soon
    as the payment reaches the cost, and on every terminal name the only
    failure it reports is "Not enough coins to pay for the domain name.". *)
Theorem C10_dns_alloc_ignores_validity call ctx w full_domain label owner :
  split_domain full_domain = ([], label) ->
  Storage (recorded label owner w) !! label = Some owner
  /\
  (is_valid_domain label = false ->
   Amount_value (compute_cost label) <= transferredCoins ctx ->
   Buffer.dns_alloc call ctx [ItemString full_domain; ItemString owner] w
   = Returned (success_buffer (ItemBytes [])) (recorded label owner w)
   /\
   Typed.dns_alloc call ctx [ItemString full_domain; ItemString owner] w
   = Returned (Ok []) (recorded label owner w))
  /\
  (Buffer.dns_alloc call ctx [ItemString full_domain; ItemString owner] w
   = Returned (success_buffer (ItemBytes [])) (recorded label owner w)
   \/
   Buffer.dns_alloc call ctx [ItemString full_domain; ItemString owner] w
   = Returned
       (failure_buffer (lit "Not enough coins to pay for the domain name.")) w)
  /\
  (Typed.dns_alloc call ctx [ItemString full_domain; ItemString owner] w
   = Returned (Ok []) (recorded label owner w)
   \/
   Typed.dns_alloc call ctx [ItemString full_domain; ItemString owner] w
   = Returned
       (Err [] (lit "Not enough coins to pay for the domain name.")) w).
Proof.
  intros Hsplit.
  rewrite (Buffer_dns_alloc_terminal call ctx w full_domain label owner Hsplit).
  rewrite (Typed_dns_alloc_terminal call ctx w full_domain label owner Hsplit).
  split; [apply lookup_insert_eq|].
  destruct (Z.ltb_spec (transferredCoins ctx) (Amount_value (compute_cost label)));
    (split; [intros _ Hpay; solve [lia | split; reflexivity] |]);
    split; solve [left; reflexivity | right; reflexivity].
Qed.

Lemma C10_dns_alloc_ignores_validity_witness :
  let paid := new_Context (new_Address (lit "A")) (1 * ONE_UNIT) in
  let w := world_of [] in
  is_valid_domain (lit "a") = false /\
  is_valid_domain (lit "") = false /\
  is_valid_domain (lit "AB") = false /\
  Buffer.dns_alloc (answering []) paid [ItemString (lit "a"); ItemString (lit "A")] w
  = Returned (success_buffer (ItemBytes [])) (recorded (lit "a") (lit "A") w) /\
  Typed.dns_alloc (answering []) paid [ItemString (lit ""); ItemString (lit "A")] w
  = Returned (Ok []) (recorded (lit "") (lit "A") w) /\
  Typed.dns_alloc (answering [])
    (new_Context (new_Address (lit "A")) (10000 * ONE_UNIT))
    [ItemString (lit "AB"); ItemString (lit "A")] w
  = Returned (Ok []) (recorded (lit "AB") (lit "A") w).
Proof.
  cbv zeta.
  split; [reflexivity|]. split; [reflexivity|]. split; [reflexivity|].
  split; [|split].
  - apply (C10_dns_alloc_ignores_validity (answering [])
             (new_Context (new_Address (lit "A")) (1 * ONE_UNIT))
             (world_of []) (lit "a") (lit "a") (lit "A"));
      [reflexivity | reflexivity | vm_compute; discriminate].
  - apply (C10_dns_alloc_ignores_validity (answering [])
             (new_Context (new_Address (lit "A")) (1 * ONE_UNIT))
             (world_of []) (lit "") (lit "") (lit "A"));
      [reflexivity | reflexivity | vm_compute; discriminate].
  - apply (C10_dns_alloc_ignores_validity (answering [])
             (new_Context (new_Address (lit "A")) (10000 * ONE_UNIT))
             (world_of []) (lit "AB") (lit "AB") (lit "A"));
      [reflexivity | reflexivity | vm_compute; discriminate].
Defined.

(** ** Resolution *)

Lemma Buffer_dns_resolve_terminal call ctx w full_domain label :
  split_domain full_domain = ([], label) ->
  Buffer.dns_resolve call ctx [ItemString full_domain] w =
  match Storage w !! label with
  | Some owner => Returned (success_buffer (ItemString owner)) w
  | None => Aborted (NotFound label)
  end.
Proof.
  intros Hsplit. unfold Buffer.dns_resolve. run_with Hsplit.
  rewrite str_ne_refl. unfold bind, Storage_get.
  destruct (Storage w !! label); reflexivity.
Qed.

Lemma Typed_dns_resolve_terminal w full_domain label :
  split_domain full_domain = ([], label) ->
  Typed.dns_resolve [ItemString full_domain] w =
  match Storage w !! label with
  | Some owner => Returned (Ok (new_Address owner)) w
  | None => Aborted (NotFound label)
  end.
Proof.
  intros Hsplit. unfold Typed.dns_resolve. run_with Hsplit.
  rewrite str_ne_refl. unfold bind, Storage_get.
  destruct (Storage w !! label); reflexivity.
Qed.

Lemma Buffer_dns_resolve_delegated call ctx w full_domain remainder label :
  split_domain full_domain = (remainder, label) ->
  remainder <> [] ->
  Buffer.dns_resolve call ctx [ItemString full_domain] w =
  match Storage w !! label with
  | Some R => call (new_Address R) (lit "dns_resolve") [ItemString remainder]
                   (transferredCoins ctx) w
  | None => Aborted (NotFound label)
  end.
Proof.
  intros Hsplit Hrem. unfold Buffer.dns_resolve. run_with Hsplit.
  apply str_ne_true in Hrem. rewrite Hrem. unfold bind, Storage_get.
  destruct (Storage w !! label); reflexivity.
Qed.

Lemma Typed_dns_resolve_delegated w full_domain remainder label :
  split_domain full_domain = (remainder, label) ->
  remainder <> [] ->
  Typed.dns_resolve [ItemString full_domain] w =
  match Storage w !! label with
  | Some R => Returned (Err (new_Address R) MSG_NOT_IMPLEMENTED) w
  | None => Aborted (NotFound label)
  end.
Proof.
  intros Hsplit Hrem. unfold Typed.dns_resolve. run_with Hsplit.
  apply str_ne_true in Hrem. rewrite Hrem. unfold bind, Storage_get.
  destruct (Storage w !! label); reflexivity.
Qed.

(** C6, as the code has it: on a terminal name [dns_resolve] returns the
    stored owner of the label; whenever the label has no record, terminal or
    not, the lookup fails with [NotFound] whatever the callee would do; on a
    delegated name whose label is registered to [R], the buffer variant is
    exactly the call of [dns_resolve] at [R] on the remainder, while the
    typed variant issues no call and returns the failure "Not implemented
    yet." carrying [R]. *)
Theorem C6_dns_resolve_paths call ctx w full_domain remainder label :
  split_domain full_domain = (remainder, label) ->
  (forall owner, remainder = [] -> Storage w !! label = Some owner ->
     Buffer.dns_resolve call ctx [ItemString full_domain] w
     = Returned (success_buffer (ItemString owner)) w
     /\
     Typed.dns_resolve [ItemString full_domain] w
     = Returned (Ok (new_Address owner)) w)
  /\
  (Storage w !! label = None ->
     Buffer.dns_resolve call ctx [ItemString full_domain] w
     = Aborted (NotFound label)
     /\
     Typed.dns_resolve [ItemString full_domain] w
     = Aborted (NotFound label))
  /\
  (forall R, remainder <> [] -> Storage w !! label = Some R ->
     Buffer.dns_resolve call ctx [ItemString full_domain] w
     = call (new_Address R) (lit "dns_resolve") [ItemString remainder]
            (transferredCoins ctx) w
     /\
     Typed.dns_resolve [ItemString full_domain] w
     = Returned (Err (new_Address R) (lit "Not implemented yet.")) w).
Proof.
  intros Hsplit. split; [|split].
  - intros owner -> Hget.
    rewrite (Buffer_dns_resolve_terminal call ctx w _ _ Hsplit).
    rewrite (Typed_dns_resolve_terminal w _ _ Hsplit).
    rewrite Hget. split; reflexivity.
  - intros Hget. destruct remainder as [|c remainder'].
    + rewrite (Buffer_dns_resolve_terminal call ctx w _ _ Hsplit).
      rewrite (Typed_dns_resolve_terminal w _ _ Hsplit).
      rewrite Hget. split; reflexivity.
    + rewrite (Buffer_dns_resolve_delegated call ctx w _ _ _ Hsplit)
        by discriminate.
      rewrite (Typed_dns_resolve_delegated w _ _ _ Hsplit)
        by discriminate.
      rewrite Hget. split; reflexivity.
  - intros R Hrem Hget.
    rewrite (Buffer_dns_resolve_delegated call ctx w _ _ _ Hsplit Hrem).
    rewrite (Typed_dns_resolve_delegated w _ _ _ Hsplit Hrem).
    rewrite Hget. split; reflexivity.
Qed.

Lemma C6_dns_resolve_paths_witness :
  let ctx := new_Context (new_Address (lit "A")) 7 in
  let w := world_of [(lit "top", lit "R")] in
  let call := answering (success_buffer (ItemString (lit "X"))) in
  (Buffer.dns_resolve call ctx [ItemString (lit "top")] w
   = Returned (success_buffer (ItemString (lit "R"))) w
   /\
   Typed.dns_resolve [ItemString (lit "top")] w
   = Returned (Ok (new_Address (lit "R"))) w)
  /\
  (Buffer.dns_resolve call ctx [ItemString (lit "sub.none")] w
   = Aborted (NotFound (lit "none"))
   /\
   Typed.dns_resolve [ItemString (lit "sub.none")] w
   = Aborted (NotFound (lit "none")))
  /\
  (Buffer.dns_resolve call ctx [ItemString (lit "sub.top")] w
   = call (new_Address (lit "R")) (lit "dns_resolve") [ItemString (lit "sub")]
          7 w
   /\
   Typed.dns_resolve [ItemString (lit "sub.top")] w
   = Returned (Err (new_Address (lit "R")) (lit "Not implemented yet.")) w).
Proof.
  cbv zeta. split; [|split].
  - apply (C6_dns_resolve_paths
             (answering (success_buffer (ItemString (lit "X"))))
             (new_Context (new_Address (lit "A")) 7)
             (world_of [(lit "top", lit "R")]) (lit "top") [] (lit "top"));
      reflexivity.
  - apply (C6_dns_resolve_paths
             (answering (success_buffer (ItemString (lit "X"))))
             (new_Context (new_Address (lit "A")) 7)
             (world_of [(lit "top", lit "R")])
             (lit "sub.none") (lit "sub") (lit "none"));
      reflexivity.
  - apply (C6_dns_resolve_paths
             (answering (success_buffer (ItemString (lit "X"))))
             (new_Context (new_Address (lit "A")) 7)
             (world_of [(lit "top", lit "R")])
             (lit "sub.top") (lit "sub") (lit "top"));
      [reflexivity | discriminate | reflexivity].
Defined.

(** C6 as stated fails for the typed variant: with ["top"] registered to
    ["R"], and ["R"] answering the forwarded request with ["X"], the typed
    [dns_resolve] of ["sub.top"] does not return that answer. *)
Lemma C6_typed_resolve_does_not_forward :
  ~ (forall (call : call_t) ctx w full_domain remainder label R X w',
       split_domain full_domain = (remainder, label) ->
       remainder <> [] ->
       Storage w !! label = Some R ->
       call (new_Address R) (lit "dns_resolve") [ItemString remainder]
            (transferredCoins ctx) w
       = Returned (success_buffer (ItemString X)) w' ->
       Typed.dns_resolve [ItemString full_domain] w
       = Returned (Ok (new_Address X)) w').
Proof.
  intros H.
  specialize (H (answering (success_buffer (ItemString (lit "X"))))
                (new_Context (new_Address (lit "A")) 0)
                (world_of [(lit "top", lit "R")])
                (lit "sub.top") (lit "sub") (lit "top") (lit "R") (lit "X")
                (world_of [(lit "top", lit "R")])).
  assert (Typed.dns_resolve
            [ItemString (lit "sub.top")] (world_of [(lit "top", lit "R")])
          = Returned (Err (new_Address (lit "R")) MSG_NOT_IMPLEMENTED)
              (world_of [(lit "top", lit "R")])) as Hrun by reflexivity.
  rewrite Hrun in H.
  discriminate H; solve [reflexivity | discriminate].
Qed.

(** ** Release and transfer *)

Lemma Buffer_dns_free_terminal call ctx w full_domain label :
  split_domain full_domain = ([], label) ->
  Buffer.dns_free call ctx [ItemString full_domain] w =
  match Storage w !! label with
  | None => Aborted (NotFound label)
  | Some owner =>
      if str_ne owner (toString (caller ctx))
      then Returned (failure_buffer MSG_ONLY_OWNER) w
      else Returned (success_buffer (ItemBytes []))
             (released label (caller ctx)
                (Amount_value (compute_cost label) / 2) w)
  end.
Proof.
  intros Hsplit. unfold Buffer.dns_free. run_with Hsplit.
  rewrite str_ne_refl. unfold Storage_get.
  destruct (Storage w !! label) as [owner|]; [|reflexivity].
  destruct (str_ne owner (toString (caller ctx))); reflexivity.
Qed.

Lemma Typed_dns_free_terminal call ctx w full_domain label :
  split_domain full_domain = ([], label) ->
  Typed.dns_free call ctx [ItemString full_domain] w =
  match Storage w !! label with
  | None => Aborted (NotFound label)
  | Some owner =>
      if str_ne owner (toString (caller ctx))
      then Returned (Err [] MSG_ONLY_OWNER) w
      else Returned (Ok [])
             (released label (caller ctx)
                (Amount_value (compute_cost label) / 2) w)
  end.
Proof.
  intros Hsplit. unfold Typed.dns_free. run_with Hsplit.
  rewrite str_ne_refl. unfold Storage_get.
  destruct (Storage w !! label) as [owner|]; [|reflexivity].
  destruct (str_ne owner (toString (caller ctx))); reflexivity.
Qed.

Lemma Buffer_dns_transfer_terminal call ctx w full_domain label new_addr :
  split_domain full_domain = ([], label) ->
  Buffer.dns_transfer call ctx [ItemString full_domain; ItemString new_addr] w =
  match Storage w !! label with
  | None => Aborted (NotFound label)
  | Some owner =>
      if str_ne owner (toString (caller ctx))
      then Returned (failure_buffer MSG_ONLY_OWNER) w
      else Returned (success_buffer (ItemBytes [])) (recorded label new_addr w)
  end.
Proof.
  intros Hsplit. unfold Buffer.dns_transfer. run_with Hsplit.
  rewrite str_ne_refl. unfold Storage_get.
  destruct (Storage w !! label) as [owner|]; [|reflexivity].
  destruct (str_ne owner (toString (caller ctx))); reflexivity.
Qed.

Lemma Typed_dns_transfer_terminal call ctx w full_domain label new_addr :
  split_domain full_domain = ([], label) ->
  Typed.dns_transfer call ctx [ItemString full_domain; ItemString new_addr] w =
  match Storage w !! label with
  | None => Aborted (NotFound label)
  | Some owner =>
      if str_ne owner (toString (caller ctx))
      then Returned (Err [] MSG_ONLY_OWNER) w
      else Returned (Ok []) (recorded label new_addr w)
  end.
Proof.
  intros Hsplit. unfold Typed.dns_transfer. run_with Hsplit.
  rewrite str_ne_refl. unfold Storage_get.
  destruct (Storage w !! label) as [owner|]; [|reflexivity].
  destruct (str_ne owner (toString (caller ctx))); reflexivity.
Qed.

(** At the aborting lookup the hosted text is the text of the two
    variants. *)
Lemma Hosted_at_Storage_get call ctx args w :
  HostedBuffer.dns_free Storage_get call ctx args w
  = Buffer.dns_free call ctx args w /\
  HostedBuffer.dns_transfer Storage_get call ctx args w
  = Buffer.dns_transfer call ctx args w /\
  HostedTyped.dns_free Storage_get call ctx args w
  = Typed.dns_free call ctx args w /\
  HostedTyped.dns_transfer Storage_get call ctx args w
  = Typed.dns_transfer call ctx args w.
Proof. repeat split. Qed.

Lemma Hosted_refuses_other_owner
      get call ctx w full_domain label new_addr owner :
  split_domain full_domain = ([], label) ->
  get label w = Returned owner w ->
  owner <> toString (caller ctx) ->
  owner_only_refusal
    (HostedBuffer.dns_free get call ctx [ItemString full_domain] w)
    (HostedBuffer.dns_transfer get call ctx
       [ItemString full_domain; ItemString new_addr] w)
    (HostedTyped.dns_free get call ctx [ItemString full_domain] w)
    (HostedTyped.dns_transfer get call ctx
       [ItemString full_domain; ItemString new_addr] w)
    w.
Proof.
  intros Hsplit Hget Hne. apply str_ne_true in Hne.
  unfold owner_only_refusal, HostedBuffer.dns_free, HostedBuffer.dns_transfer,
    HostedTyped.dns_free, HostedTyped.dns_transfer.
  run_with Hsplit. rewrite str_ne_refl, Hget, Hne.
  repeat split.
Qed.

(** C1: owner-gating.  On a terminal name, whenever the owner string that
    the lookup hands to the contract differs from the caller's identity,
    [dns_free] and [dns_transfer] of both variants fail with "Only the
    owner of the domain can free it." and leave the world as it was.  This
    holds over any [Storage.get]; it covers a label recorded for another
    owner, and it covers a label with no record where the lookup answers a
    miss with the empty owner, which matches no caller. *)
Theorem C1_owner_gating call ctx w full_domain label new_addr :
  split_domain full_domain = ([], label) ->
  (forall (get : str -> host str) owner,
     get label w = Returned owner w ->
     owner <> toString (caller ctx) ->
     owner_only_refusal
       (HostedBuffer.dns_free get call ctx [ItemString full_domain] w)
       (HostedBuffer.dns_transfer get call ctx
          [ItemString full_domain; ItemString new_addr] w)
       (HostedTyped.dns_free get call ctx [ItemString full_domain] w)
       (HostedTyped.dns_transfer get call ctx
          [ItemString full_domain; ItemString new_addr] w)
       w)
  /\
  (forall owner,
     Storage w !! label = Some owner ->
     owner <> toString (caller ctx) ->
     owner_only_refusal
       (Buffer.dns_free call ctx [ItemString full_domain] w)
       (Buffer.dns_transfer call ctx
          [ItemString full_domain; ItemString new_addr] w)
       (Typed.dns_free call ctx [ItemString full_domain] w)
       (Typed.dns_transfer call ctx
          [ItemString full_domain; ItemString new_addr] w)
       w)
  /\
  (Storage w !! label = None ->
   toString (caller ctx) <> [] ->
   owner_only_refusal
     (HostedBuffer.dns_free Storage_get_or_empty call ctx
        [ItemString full_domain] w)
     (HostedBuffer.dns_transfer Storage_get_or_empty call ctx
        [ItemString full_domain; ItemString new_addr] w)
     (HostedTyped.dns_free Storage_get_or_empty call ctx
        [ItemString full_domain] w)
     (HostedTyped.dns_transfer Storage_get_or_empty call ctx
        [ItemString full_domain; ItemString new_addr] w)
     w).
Proof.
  intros Hsplit. split; [|split].
  - intros get owner Hget Hne.
    exact (Hosted_refuses_other_owner get call ctx w _ _ new_addr owner
             Hsplit Hget Hne).
  - intros owner Hget Hne.
    apply (Hosted_refuses_other_owner Storage_get call ctx w _ _ new_addr owner
             Hsplit); [|exact Hne].
    unfold Storage_get. rewrite Hget. reflexivity.
  - intros Hnone Hcaller.
    apply (Hosted_refuses_other_owner Storage_get_or_empty call ctx w _ _
             new_addr [] Hsplit).
    + unfold Storage_get_or_empty. rewrite Hnone. reflexivity.
    + congruence.
Qed.

Lemma C1_owner_gating_witness :
  let ctx := new_Context (new_Address (lit "B")) 0 in
  let w := world_of [(lit "foo", lit "A")] in
  owner_only_refusal
    (Buffer.dns_free (answering []) ctx [ItemString (lit "foo")] w)
    (Buffer.dns_transfer (answering []) ctx
       [ItemString (lit "foo"); ItemString (lit "B")] w)
    (Typed.dns_free (answering []) ctx [ItemString (lit "foo")] w)
    (Typed.dns_transfer (answering []) ctx
       [ItemString (lit "foo"); ItemString (lit "B")] w)
    w
  /\
  owner_only_refusal
    (HostedBuffer.dns_free Storage_get_or_empty (answering []) ctx
       [ItemString (lit "bar")] w)
    (HostedBuffer.dns_transfer Storage_get_or_empty (answering []) ctx
       [ItemString (lit "bar"); ItemString (lit "B")] w)
    (HostedTyped.dns_free Storage_get_or_empty (answering []) ctx
       [ItemString (lit "bar")] w)
    (HostedTyped.dns_transfer Storage_get_or_empty (answering []) ctx
       [ItemString (lit "bar"); ItemString (lit "B")] w)
    w
  /\
  owner_only_refusal
    (HostedBuffer.dns_free Storage_get_or_empty (answering []) ctx
       [ItemString (lit "foo")] w)
    (HostedBuffer.dns_transfer Storage_get_or_empty (answering []) ctx
       [ItemString (lit "foo"); ItemString (lit "B")] w)
    (HostedTyped.dns_free Storage_get_or_empty (answering []) ctx
       [ItemString (lit "foo")] w)
    (HostedTyped.dns_transfer Storage_get_or_empty (answering []) ctx
       [ItemString (lit "foo"); ItemString (lit "B")] w)
    w.
Proof.
  cbv zeta. split; [|split].
  - destruct (C1_owner_gating (answering [])
                (new_Context (new_Address (lit "B")) 0)
                (world_of [(lit "foo", lit "A")])
                (lit "foo") (lit "foo") (lit "B") eq_refl)
      as (_ & Hrecorded & _).
    apply (Hrecorded (lit "A")); [reflexivity | discriminate].
  - destruct (C1_owner_gating (answering [])
                (new_Context (new_Address (lit "B")) 0)
                (world_of [(lit "foo", lit "A")])
                (lit "bar") (lit "bar") (lit "B") eq_refl)
      as (_ & _ & Hunclaimed).
    apply Hunclaimed; [reflexivity | discriminate].
  - destruct (C1_owner_gating (answering [])
                (new_Context (new_Address (lit "B")) 0)
                (world_of [(lit "foo", lit "A")])
                (lit "foo") (lit "foo") (lit "B") eq_refl)
      as (Hany & _ & _).
    apply (Hany Storage_get_or_empty (lit "A")); [reflexivity | discriminate].
Defined.

(** C4: on a terminal name whose label is recorded for the caller,
    [dns_free] deletes the record and hands the ledger a transfer to the
    caller of half the cost of the label, the division truncating; for
    ["ab"] the cost is 10,000 units and the refund 5,000 units. *)
Theorem C4_dns_free_refund call ctx w full_domain label :
  split_domain full_domain = ([], label) ->
  Storage w !! label = Some (toString (caller ctx)) ->
  let refund := Amount_value (compute_cost label) / 2 in
  Buffer.dns_free call ctx [ItemString full_domain] w
  = Returned (success_buffer (ItemBytes []))
      (released label (caller ctx) refund w)
  /\
  Typed.dns_free call ctx [ItemString full_domain] w
  = Returned (Ok []) (released label (caller ctx) refund w)
  /\
  Storage (released label (caller ctx) refund w) !! label = None
  /\
  transfers (released label (caller ctx) refund w)
  = (caller ctx, refund) :: transfers w
  /\
  refund = Z.quot (Amount_value (compute_cost label)) 2
  /\
  Amount_value (compute_cost (lit "ab")) = 10000 * ONE_UNIT
  /\
  Amount_value (compute_cost (lit "ab")) / 2 = 5000 * ONE_UNIT.
Proof.
  intros Hsplit Hget refund.
  rewrite (Buffer_dns_free_terminal call ctx w _ _ Hsplit).
  rewrite (Typed_dns_free_terminal call ctx w _ _ Hsplit).
  rewrite Hget, str_ne_refl.
  split; [reflexivity|]. split; [reflexivity|].
  split; [apply lookup_delete_eq|]. split; [reflexivity|].
  split; [|split; reflexivity].
  subst refund. pose proof (compute_cost_pos label) as [Hpos _].
  rewrite Z.quot_div_nonneg by lia. reflexivity.
Qed.

Lemma C4_dns_free_refund_witness :
  let ctx := new_Context (new_Address (lit "A")) 0 in
  let w := world_of [(lit "ab", lit "A")] in
  Buffer.dns_free (answering []) ctx [ItemString (lit "ab")] w
  = Returned (success_buffer (ItemBytes []))
      (new_world (delete (lit "ab") (Storage w))
         [(new_Address (lit "A"), 5000 * ONE_UNIT)]).
Proof.
  cbv zeta.
  apply (C4_dns_free_refund (answering [])
           (new_Context (new_Address (lit "A")) 0)
           (world_of [(lit "ab", lit "A")]) (lit "ab") (lit "ab"));
    reflexivity.
Defined.

(** ** Allocation followed by resolution *)



(** ** Quoting *)

Lemma Buffer_dns_alloc_cost_terminal call ctx w full_domain label address :
  split_domain full_domain = ([], label) ->
  Buffer.dns_alloc_cost call ctx
    [ItemString full_domain; ItemString address] w
  = Returned (Buffer.serializeResult ItemAmount (local_quote label)) w.
Proof.
  intros Hsplit. unfold Buffer.dns_alloc_cost. run_with Hsplit.
  rewrite str_ne_refl, Amount_add_zero_cost, unwrap_Ok. unfold local_quote.
  destruct (is_valid_domain label); reflexivity.
Qed.


Lemma Typed_dns_alloc_cost_run w full_domain remainder label address :
  split_domain full_domain = (remainder, label) ->
  Typed.dns_alloc_cost [ItemString full_domain; ItemString address] w
  = if str_ne remainder [] then
      match Storage w !! label with
      | Some _ => Returned (local_quote label) w
      | None => Aborted (NotFound label)
      end
    else Returned (local_quote label) w.
Proof.
  intros Hsplit. unfold Typed.dns_alloc_cost. run_with Hsplit.
  rewrite Amount_add_zero_cost. unfold local_quote, Storage_get.
  destruct (str_ne remainder []);
    [destruct (Storage w !! label)|];
    try reflexivity;
    destruct (is_valid_domain label); reflexivity.
Qed.

Lemma serializeResult_local_quote (label : str) :
  Buffer.serializeResult ItemAmount (local_quote label)
  = if is_valid_domain label
    then success_buffer (ItemAmount (compute_cost label))
    else failure_buffer (lit "Invalid domain name.").
Proof. unfold local_quote. destruct (is_valid_domain label); reflexivity. Qed.




(** * Further properties of the contract *)

(** ** Where a name splits *)

(** Every string either has no dot or has a last one. *)
Lemma last_dot_decompose (s : str) :
  ~ In DOT s \/ exists pre suf, s = pre ++ DOT :: suf /\ ~ In DOT suf.
Proof.
  induction s as [|x s IH].
  - left. intros [].
  - destruct IH as [Hno | (pre & suf & -> & Hsuf)].
    + destruct (Z.eq_dec x DOT) as [->|Hx].
      * right. exists [], s. split; [reflexivity | exact Hno].
      * left. intros [Hin|Hin]; [apply Hx; exact Hin | apply Hno; exact Hin].
    + right. exists (x :: pre), suf. split; [reflexivity | exact Hsuf].
Qed.

(** X1: a name without a dot, the empty name included, is returned whole as
    the label, with an empty remainder. *)
Theorem X1_split_domain_without_dot (domain : str) :
  ~ In DOT domain ->
  split_domain domain = ([], domain).
Proof. apply split_domain_plain. Qed.

Lemma X1_split_domain_without_dot_witness :
  split_domain (lit "massa") = ([], lit "massa").
Proof.
  apply (X1_split_domain_without_dot (lit "massa")).
  vm_compute. intuition discriminate.
Defined.

(** X2: a name is cut at its last dot only: the label is what follows it and
    the remainder everything before it, earlier dots included. *)
Theorem X2_split_domain_at_last_dot (remainder label : str) :
  ~ In DOT label ->
  str_length (remainder ++ DOT :: label) <= i32_MAX_VALUE ->
  split_domain (remainder ++ DOT :: label) = (remainder, label).
Proof. apply split_domain_dotted. Qed.

Lemma X2_split_domain_at_last_dot_witness :
  split_domain (lit "a.b.top") = (lit "a.b", lit "top").
Proof.
  apply (X2_split_domain_at_last_dot (lit "a.b") (lit "top")).
  - vm_compute. intuition discriminate.
  - vm_compute. discriminate.
Defined.

(** X3: for every name whose length fits [i32], the label returned by
    [split_domain] contains no dot, and the name is either the label itself
    (no dot at all, empty remainder) or the remainder, a dot and the label
    put back together. *)
Theorem X3_split_domain_reassembles (domain : str) :
  str_length domain <= i32_MAX_VALUE ->
  ~ In DOT (split_domain domain).2 /\
  ((~ In DOT domain /\ split_domain domain = ([], domain)) \/
   domain = (split_domain domain).1 ++ DOT :: (split_domain domain).2).
Proof.
  intros Hmax.
  destruct (last_dot_decompose domain) as [Hno | (pre & suf & -> & Hsuf)].
  - rewrite split_domain_plain by exact Hno. cbn [snd].
    split; [exact Hno | left; split; [exact Hno | reflexivity]].
  - rewrite split_domain_dotted by assumption. cbn [fst snd].
    split; [exact Hsuf | right; reflexivity].
Qed.

Lemma X3_split_domain_reassembles_witness :
  ~ In DOT (split_domain (lit "a.b.top")).2 /\
  ((~ In DOT (lit "a.b.top") /\
    split_domain (lit "a.b.top") = ([], lit "a.b.top")) \/
   lit "a.b.top"
   = (split_domain (lit "a.b.top")).1 ++ DOT :: (split_domain (lit "a.b.top")).2).
Proof.
  apply (X3_split_domain_reassembles (lit "a.b.top")).
  vm_compute. discriminate.
Defined.

(** ** Labels, validity and cost *)

Lemma label_char_not_dot (label : str) :
  Forall label_char label -> ~ In DOT label.
Proof.
  intros Hall Hin. rewrite Forall_forall in Hall.
  apply list_elem_of_In in Hin. specialize (Hall DOT Hin).
  unfold label_char, DOT in Hall. lia.
Qed.

Lemma is_valid_domain_no_dot (label : str) :
  is_valid_domain label = true -> ~ In DOT label.
Proof.
  rewrite is_valid_domain_forallb, andb_true_iff, forallb_valid_code.
  intros [_ Hall]. apply label_char_not_dot. exact Hall.
Qed.

(** X4: a label accepted by [is_valid_domain] is always a terminal name: it
    splits into an empty remainder and itself, so the typed
    [dns_alloc_cost] quotes its cost in every world without looking
    anything up, and the buffer variant serializes the same quote. *)
Theorem X4_valid_label_is_terminal call ctx w (label address : str) :
  is_valid_domain label = true ->
  split_domain label = ([], label) /\
  Typed.dns_alloc_cost [ItemString label; ItemString address] w
  = Returned (Ok (compute_cost label)) w /\
  Buffer.dns_alloc_cost call ctx [ItemString label; ItemString address] w
  = Returned (success_buffer (ItemAmount (compute_cost label))) w.
Proof.
  intros Hvalid.
  pose proof (split_domain_plain label (is_valid_domain_no_dot label Hvalid))
    as Hsplit.
  split; [exact Hsplit|].
  rewrite (Typed_dns_alloc_cost_run w _ _ _ address Hsplit).
  rewrite (Buffer_dns_alloc_cost_terminal call ctx w _ _ address Hsplit).
  rewrite serializeResult_local_quote. unfold local_quote.
  rewrite Hvalid, str_ne_refl. split; reflexivity.
Qed.

Lemma X4_valid_label_is_terminal_witness :
  split_domain (lit "my-name-42") = ([], lit "my-name-42") /\
  Typed.dns_alloc_cost [ItemString (lit "my-name-42"); ItemString (lit "A")]
    (world_of [])
  = Returned (Ok (compute_cost (lit "my-name-42"))) (world_of []) /\
  Buffer.dns_alloc_cost (answering []) (new_Context (new_Address (lit "A")) 0)
    [ItemString (lit "my-name-42"); ItemString (lit "A")] (world_of [])
  = Returned (success_buffer (ItemAmount (compute_cost (lit "my-name-42"))))
      (world_of []).
Proof.
  apply (X4_valid_label_is_terminal (answering [])
           (new_Context (new_Address (lit "A")) 0) (world_of [])
           (lit "my-name-42") (lit "A")).
  reflexivity.
Defined.

(** X5: whatever the label, its cost lies between 1 and 10,000 units, fits
    [u64], and is even, so the refund of [dns_free] is exactly half of it
    with nothing lost to the division; labels of equal length cost the
    same. *)
Theorem X5_compute_cost_range (a b : str) :
  1 * ONE_UNIT <= Amount_value (compute_cost a) <= 10000 * ONE_UNIT /\
  Amount_value (compute_cost a) < 2 ^ 64 /\
  2 * (Amount_value (compute_cost a) / 2) = Amount_value (compute_cost a) /\
  (str_length a = str_length b -> compute_cost a = compute_cost b).
Proof.
  split; [|split; [|split]].
  - rewrite compute_cost_tier.
    destruct (tier_cases (str_length a)) as [[_ E]|[[_ E]|[[_ E]|[_ E]]]];
      rewrite E; unfold ONE_UNIT; lia.
  - apply compute_cost_pos.
  - rewrite compute_cost_tier.
    destruct (tier_cases (str_length a)) as [[_ E]|[[_ E]|[[_ E]|[_ E]]]];
      rewrite E; reflexivity.
  - intros Hlen. unfold compute_cost. rewrite Hlen. reflexivity.
Qed.

Lemma X5_compute_cost_range_witness :
  compute_cost (lit "ab") = compute_cost (lit "zz").
Proof.
  apply (X5_compute_cost_range (lit "ab") (lit "zz")). reflexivity.
Defined.

(** ** Names with a leading or a trailing dot *)

Lemma split_domain_leading_dot (label : str) :
  ~ In DOT label ->
  str_length (DOT :: label) <= i32_MAX_VALUE ->
  split_domain (DOT :: label) = ([], label).
Proof. intros Hno Hmax. exact (split_domain_dotted [] label Hno Hmax). Qed.

Lemma split_domain_trailing_dot (remainder : str) :
  str_length (remainder ++ [DOT]) <= i32_MAX_VALUE ->
  split_domain (remainder ++ [DOT]) = (remainder, []).
Proof. intros Hmax. apply split_domain_dotted; [intros [] | exact Hmax]. Qed.

(** X6: a name made of a dot followed by a dot-free label has an empty
    remainder, so it is not delegated: every operation of both variants
    treats it exactly as the bare label, reading and writing the same
    record. *)
Theorem X6_leading_dot_is_the_bare_label call ctx w (label a : str) :
  ~ In DOT label ->
  str_length (DOT :: label) <= i32_MAX_VALUE ->
  Buffer.dns_resolve call ctx [ItemString (DOT :: label)] w
  = Buffer.dns_resolve call ctx [ItemString label] w /\
  Buffer.dns_alloc_cost call ctx [ItemString (DOT :: label); ItemString a] w
  = Buffer.dns_alloc_cost call ctx [ItemString label; ItemString a] w /\
  Buffer.dns_alloc call ctx [ItemString (DOT :: label); ItemString a] w
  = Buffer.dns_alloc call ctx [ItemString label; ItemString a] w /\
  Buffer.dns_free call ctx [ItemString (DOT :: label)] w
  = Buffer.dns_free call ctx [ItemString label] w /\
  Buffer.dns_transfer call ctx [ItemString (DOT :: label); ItemString a] w
  = Buffer.dns_transfer call ctx [ItemString label; ItemString a] w /\
  Typed.dns_resolve [ItemString (DOT :: label)] w
  = Typed.dns_resolve [ItemString label] w /\
  Typed.dns_alloc_cost [ItemString (DOT :: label); ItemString a] w
  = Typed.dns_alloc_cost [ItemString label; ItemString a] w /\
  Typed.dns_alloc call ctx [ItemString (DOT :: label); ItemString a] w
  = Typed.dns_alloc call ctx [ItemString label; ItemString a] w /\
  Typed.dns_free call ctx [ItemString (DOT :: label)] w
  = Typed.dns_free call ctx [ItemString label] w /\
  Typed.dns_transfer call ctx [ItemString (DOT :: label); ItemString a] w
  = Typed.dns_transfer call ctx [ItemString label; ItemString a] w.
Proof.
  intros Hno Hmax.
  pose proof (split_domain_leading_dot label Hno Hmax) as Hdot.
  pose proof (split_domain_plain label Hno) as Hbare.
  rewrite (Buffer_dns_resolve_terminal call ctx w _ _ Hdot),
          (Buffer_dns_resolve_terminal call ctx w _ _ Hbare),
          (Buffer_dns_alloc_cost_terminal call ctx w _ _ a Hdot),
          (Buffer_dns_alloc_cost_terminal call ctx w _ _ a Hbare),
          (Buffer_dns_alloc_terminal call ctx w _ _ a Hdot),
          (Buffer_dns_alloc_terminal call ctx w _ _ a Hbare),
          (Buffer_dns_free_terminal call ctx w _ _ Hdot),
          (Buffer_dns_free_terminal call ctx w _ _ Hbare),
          (Buffer_dns_transfer_terminal call ctx w _ _ a Hdot),
          (Buffer_dns_transfer_terminal call ctx w _ _ a Hbare),
          (Typed_dns_resolve_terminal w _ _ Hdot),
          (Typed_dns_resolve_terminal w _ _ Hbare),
          (Typed_dns_alloc_cost_run w _ _ _ a Hdot),
          (Typed_dns_alloc_cost_run w _ _ _ a Hbare),
          (Typed_dns_alloc_terminal call ctx w _ _ a Hdot),
          (Typed_dns_alloc_terminal call ctx w _ _ a Hbare),
          (Typed_dns_free_terminal call ctx w _ _ Hdot),
          (Typed_dns_free_terminal call ctx w _ _ Hbare),
          (Typed_dns_transfer_terminal call ctx w _ _ a Hdot),
          (Typed_dns_transfer_terminal call ctx w _ _ a Hbare).
  repeat (split; [reflexivity|]). reflexivity.
Qed.

Lemma X6_leading_dot_is_the_bare_label_witness :
  Buffer.dns_alloc (answering [])
    (new_Context (new_Address (lit "A")) (1000 * ONE_UNIT))
    [ItemString (lit ".foo"); ItemString (lit "A")] (world_of [])
  = Buffer.dns_alloc (answering [])
      (new_Context (new_Address (lit "A")) (1000 * ONE_UNIT))
      [ItemString (lit "foo"); ItemString (lit "A")] (world_of []).
Proof.
  apply (X6_leading_dot_is_the_bare_label (answering [])
           (new_Context (new_Address (lit "A")) (1000 * ONE_UNIT))
           (world_of []) (lit "foo") (lit "A")).
  - vm_compute. intuition discriminate.
  - vm_compute. discriminate.
Defined.

(** X7: a name ending in a dot splits into the rest as remainder and the
    empty string as label; with a non-empty remainder it is therefore
    delegated to whoever holds the record of the empty label, and fails at
    the lookup when nobody does. *)
Theorem X7_trailing_dot_uses_the_empty_label call ctx w (remainder : str) :
  remainder <> [] ->
  str_length (remainder ++ [DOT]) <= i32_MAX_VALUE ->
  split_domain (remainder ++ [DOT]) = (remainder, []) /\
  Buffer.dns_resolve call ctx [ItemString (remainder ++ [DOT])] w
  = match Storage w !! ([] : str) with
    | Some R => call (new_Address R) (lit "dns_resolve")
                     [ItemString remainder] (transferredCoins ctx) w
    | None => Aborted (NotFound [])
    end.
Proof.
  intros Hrem Hmax.
  pose proof (split_domain_trailing_dot remainder Hmax) as Hsplit.
  split; [exact Hsplit|].
  exact (Buffer_dns_resolve_delegated call ctx w _ _ _ Hsplit Hrem).
Qed.

Lemma X7_trailing_dot_uses_the_empty_label_witness :
  split_domain (lit "foo.") = (lit "foo", []) /\
  Buffer.dns_resolve (answering (success_buffer (ItemString (lit "X"))))
    (new_Context (new_Address (lit "A")) 0) [ItemString (lit "foo.")]
    (world_of [([], lit "R")])
  = Returned (success_buffer (ItemString (lit "X"))) (world_of [([], lit "R")]).
Proof.
  apply (X7_trailing_dot_uses_the_empty_label
           (answering (success_buffer (ItemString (lit "X"))))
           (new_Context (new_Address (lit "A")) 0)
           (world_of [([], lit "R")]) (lit "foo")).
  - discriminate.
  - vm_compute. discriminate.
Defined.

(** ** Delegated names in the state-changing operations *)

Ltac run_delegated Hsplit Hrem :=
  run_with Hsplit;
  let Hne := fresh "Hne" in
  pose proof (proj2 (str_ne_true _ _) Hrem) as Hne; rewrite Hne;
  unfold Storage_get;
  match goal with |- context [Storage ?w !! ?l] => destruct (Storage w !! l) end;
  reflexivity.

Lemma Buffer_dns_alloc_delegated call ctx w full_domain remainder label a :
  split_domain full_domain = (remainder, label) -> remainder <> [] ->
  Buffer.dns_alloc call ctx [ItemString full_domain; ItemString a] w
  = match Storage w !! label with
    | Some R => call (new_Address R) (lit "dns_alloc") [ItemString remainder]
                     (transferredCoins ctx) w
    | None => Aborted (NotFound label)
    end.
Proof. intros Hsplit Hrem. unfold Buffer.dns_alloc. run_delegated Hsplit Hrem. Qed.

Lemma Buffer_dns_free_delegated call ctx w full_domain remainder label :
  split_domain full_domain = (remainder, label) -> remainder <> [] ->
  Buffer.dns_free call ctx [ItemString full_domain] w
  = match Storage w !! label with
    | Some R => call (new_Address R) (lit "dns_free") [ItemString remainder]
                     (transferredCoins ctx) w
    | None => Aborted (NotFound label)
    end.
Proof. intros Hsplit Hrem. unfold Buffer.dns_free. run_delegated Hsplit Hrem. Qed.

Lemma Buffer_dns_transfer_delegated call ctx w full_domain remainder label a :
  split_domain full_domain = (remainder, label) -> remainder <> [] ->
  Buffer.dns_transfer call ctx [ItemString full_domain; ItemString a] w
  = match Storage w !! label with
    | Some R => call (new_Address R) (lit "dns_transfer")
                     [ItemString remainder] (transferredCoins ctx) w
    | None => Aborted (NotFound label)
    end.
Proof. intros Hsplit Hrem. unfold Buffer.dns_transfer. run_delegated Hsplit Hrem. Qed.

Lemma Typed_dns_alloc_delegated call ctx w full_domain remainder label a :
  split_domain full_domain = (remainder, label) -> remainder <> [] ->
  Typed.dns_alloc call ctx [ItemString full_domain; ItemString a] w
  = match Storage w !! label with
    | Some R => wrapped (call (new_Address R) (lit "dns_alloc")
                           [ItemString remainder] (transferredCoins ctx) w)
    | None => Aborted (NotFound label)
    end.
Proof. intros Hsplit Hrem. unfold Typed.dns_alloc. run_delegated Hsplit Hrem. Qed.

Lemma Typed_dns_free_delegated call ctx w full_domain remainder label :
  split_domain full_domain = (remainder, label) -> remainder <> [] ->
  Typed.dns_free call ctx [ItemString full_domain] w
  = match Storage w !! label with
    | Some R => wrapped (call (new_Address R) (lit "dns_free")
                           [ItemString remainder] (transferredCoins ctx) w)
    | None => Aborted (NotFound label)
    end.
Proof. intros Hsplit Hrem. unfold Typed.dns_free. run_delegated Hsplit Hrem. Qed.

Lemma Typed_dns_transfer_delegated call ctx w full_domain remainder label a :
  split_domain full_domain = (remainder, label) -> remainder <> [] ->
  Typed.dns_transfer call ctx [ItemString full_domain; ItemString a] w
  = match Storage w !! label with
    | Some R => wrapped (call (new_Address R) (lit "dns_transfer")
                           [ItemString remainder] (transferredCoins ctx) w)
    | None => Aborted (NotFound label)
    end.
Proof. intros Hsplit Hrem. unfold Typed.dns_transfer. run_delegated Hsplit Hrem. Qed.

(** X8: on a delegated name whose label is registered to [R], the buffer
    variants of [dns_alloc], [dns_free] and [dns_transfer] are exactly the
    call of the same function at [R] with all the transferred coins and a
    request holding the remainder alone: the owner or new address given by
    the caller is not passed on, no payment or ownership check is made
    locally, and the answer and world are the callee's. *)
Theorem X8_buffer_delegation call ctx w full_domain remainder label a R :
  split_domain full_domain = (remainder, label) ->
  remainder <> [] ->
  Storage w !! label = Some R ->
  Buffer.dns_alloc call ctx [ItemString full_domain; ItemString a] w
  = call (new_Address R) (lit "dns_alloc") [ItemString remainder]
         (transferredCoins ctx) w /\
  Buffer.dns_free call ctx [ItemString full_domain] w
  = call (new_Address R) (lit "dns_free") [ItemString remainder]
         (transferredCoins ctx) w /\
  Buffer.dns_transfer call ctx [ItemString full_domain; ItemString a] w
  = call (new_Address R) (lit "dns_transfer") [ItemString remainder]
         (transferredCoins ctx) w.
Proof.
  intros Hsplit Hrem Hget.
  rewrite (Buffer_dns_alloc_delegated call ctx w _ _ _ a Hsplit Hrem),
          (Buffer_dns_free_delegated call ctx w _ _ _ Hsplit Hrem),
          (Buffer_dns_transfer_delegated call ctx w _ _ _ a Hsplit Hrem),
          Hget.
  repeat split.
Qed.

Lemma X8_buffer_delegation_witness :
  let call := answering (failure_buffer (lit "no")) in
  let ctx := new_Context (new_Address (lit "A")) 0 in
  let w := world_of [(lit "top", lit "R")] in
  Buffer.dns_alloc call ctx [ItemString (lit "sub.top"); ItemString (lit "A")] w
  = call (new_Address (lit "R")) (lit "dns_alloc") [ItemString (lit "sub")] 0 w
  /\
  Buffer.dns_free call ctx [ItemString (lit "sub.top")] w
  = call (new_Address (lit "R")) (lit "dns_free") [ItemString (lit "sub")] 0 w
  /\
  Buffer.dns_transfer call ctx
    [ItemString (lit "sub.top"); ItemString (lit "A")] w
  = call (new_Address (lit "R")) (lit "dns_transfer")
         [ItemString (lit "sub")] 0 w.
Proof.
  cbv zeta.
  apply (X8_buffer_delegation (answering (failure_buffer (lit "no")))
           (new_Context (new_Address (lit "A")) 0)
           (world_of [(lit "top", lit "R")])
           (lit "sub.top") (lit "sub") (lit "top") (lit "A") (lit "R"));
    [reflexivity | discriminate | reflexivity].
Defined.

(** X9: on a delegated name whose label is registered, the typed variants
    of [dns_alloc], [dns_free] and [dns_transfer] put the callee's returned
    buffer into a result without error: whenever the callee returns at all,
    the typed operation reports success, whatever the returned buffer
    says. *)
Theorem X9_typed_delegation_reports_success
        call ctx w full_domain remainder label a R b w' :
  split_domain full_domain = (remainder, label) ->
  remainder <> [] ->
  Storage w !! label = Some R ->
  (call (new_Address R) (lit "dns_alloc") [ItemString remainder]
        (transferredCoins ctx) w = Returned b w' ->
   Typed.dns_alloc call ctx [ItemString full_domain; ItemString a] w
   = Returned (Ok b) w' /\ isOk (Ok b) = true) /\
  (call (new_Address R) (lit "dns_free") [ItemString remainder]
        (transferredCoins ctx) w = Returned b w' ->
   Typed.dns_free call ctx [ItemString full_domain] w
   = Returned (Ok b) w') /\
  (call (new_Address R) (lit "dns_transfer") [ItemString remainder]
        (transferredCoins ctx) w = Returned b w' ->
   Typed.dns_transfer call ctx [ItemString full_domain; ItemString a] w
   = Returned (Ok b) w').
Proof.
  intros Hsplit Hrem Hget.
  rewrite (Typed_dns_alloc_delegated call ctx w _ _ _ a Hsplit Hrem),
          (Typed_dns_free_delegated call ctx w _ _ _ Hsplit Hrem),
          (Typed_dns_transfer_delegated call ctx w _ _ _ a Hsplit Hrem),
          Hget.
  split; [|split]; intros ->; [split|..]; reflexivity.
Qed.

Lemma X9_typed_delegation_reports_success_witness :
  let refusal := failure_buffer (lit "Not enough coins to pay for the domain name.") in
  let w := world_of [(lit "top", lit "R")] in
  Typed.dns_alloc (answering refusal) (new_Context (new_Address (lit "A")) 0)
    [ItemString (lit "sub.top"); ItemString (lit "A")] w
  = Returned (Ok refusal) w /\ isOk (Ok refusal) = true.
Proof.
  cbv zeta.
  apply (X9_typed_delegation_reports_success
           (answering (failure_buffer (lit "Not enough coins to pay for the domain name.")))
           (new_Context (new_Address (lit "A")) 0)
           (world_of [(lit "top", lit "R")])
           (lit "sub.top") (lit "sub") (lit "top") (lit "A") (lit "R")
           (failure_buffer (lit "Not enough coins to pay for the domain name."))
           (world_of [(lit "top", lit "R")]));
    [reflexivity | discriminate | reflexivity | reflexivity].
Defined.

(** ** Requests with missing arguments *)

(** X10: [dns_alloc_cost], [dns_alloc] and [dns_transfer] read two strings.
    A request holding the name alone, which is the form the delegated paths
    forward, makes the second [unwrap] abort the invocation in both
    variants, before the name is split or the store read. *)
Theorem X10_single_string_request_aborts call ctx w (name : str) :
  Buffer.dns_alloc_cost call ctx [ItemString name] w = Aborted UnwrapFailed /\
  Buffer.dns_alloc call ctx [ItemString name] w = Aborted UnwrapFailed /\
  Buffer.dns_transfer call ctx [ItemString name] w = Aborted UnwrapFailed /\
  Typed.dns_alloc_cost [ItemString name] w = Aborted UnwrapFailed /\
  Typed.dns_alloc call ctx [ItemString name] w = Aborted UnwrapFailed /\
  Typed.dns_transfer call ctx [ItemString name] w = Aborted UnwrapFailed.
Proof. repeat split. Qed.

(** X11: the empty request aborts every operation of both variants at the
    first [unwrap], in every world and for every caller, before the store
    is read. *)
Theorem X11_empty_request_aborts call ctx w :
  Buffer.dns_resolve call ctx [] w = Aborted UnwrapFailed /\
  Buffer.dns_alloc_cost call ctx [] w = Aborted UnwrapFailed /\
  Buffer.dns_alloc call ctx [] w = Aborted UnwrapFailed /\
  Buffer.dns_free call ctx [] w = Aborted UnwrapFailed /\
  Buffer.dns_transfer call ctx [] w = Aborted UnwrapFailed /\
  Typed.dns_resolve [] w = Aborted UnwrapFailed /\
  Typed.dns_alloc_cost [] w = Aborted UnwrapFailed /\
  Typed.dns_alloc call ctx [] w = Aborted UnwrapFailed /\
  Typed.dns_free call ctx [] w = Aborted UnwrapFailed /\
  Typed.dns_transfer call ctx [] w = Aborted UnwrapFailed.
Proof. repeat split. Qed.

(** ** What the operations leave untouched *)

(** X12: the typed [dns_resolve] and [dns_alloc_cost] are read-only: for
    every request and every world, well formed or not, delegated or not,
    the world after the invocation is the world before it (no record
    written or deleted, no transfer issued, no call made). *)
Theorem X12_typed_queries_are_read_only (args : buffer) (w : world) :
  world_after w (Typed.dns_resolve args w) = w /\
  world_after w (Typed.dns_alloc_cost args w) = w.
Proof.
  split.
  - unfold Typed.dns_resolve.
    destruct args as [|[n|s|am|bs] rest]; try reflexivity.
    cbn [nextString]. unfold bind at 1. rewrite unwrap_Ok.
    destruct (split_domain s) as [remainder label]. cbn [fst snd].
    unfold bind, Storage_get.
    destruct (str_ne remainder []), (Storage w !! label); reflexivity.
  - unfold Typed.dns_alloc_cost.
    destruct args as [|[n|s|am|bs] rest]; try reflexivity.
    destruct rest as [|[n|a|am|bs] rest]; try reflexivity.
    cbn [nextString]. unfold bind at 1. rewrite unwrap_Ok.
    unfold bind at 1. rewrite unwrap_Ok.
    destruct (split_domain s) as [remainder label]. cbn [fst snd].
    rewrite Amount_add_zero_cost.
    unfold bind, Storage_get.
    destruct (str_ne remainder []), (Storage w !! label),
      (is_valid_domain label); reflexivity.
Qed.

(** X13: on a terminal name, [dns_alloc], [dns_free] and [dns_transfer] of
    both variants touch no record other than the one of the name's label,
    and [dns_alloc] and [dns_transfer] issue no coin transfer. *)
Theorem X13_terminal_operations_frame
        call ctx w full_domain label a (other : str) :
  split_domain full_domain = ([], label) ->
  other <> label ->
  let alloc_b := Buffer.dns_alloc call ctx [ItemString full_domain; ItemString a] w in
  let alloc_t := Typed.dns_alloc call ctx [ItemString full_domain; ItemString a] w in
  let free_b := Buffer.dns_free call ctx [ItemString full_domain] w in
  let free_t := Typed.dns_free call ctx [ItemString full_domain] w in
  let transfer_b :=
    Buffer.dns_transfer call ctx [ItemString full_domain; ItemString a] w in
  let transfer_t :=
    Typed.dns_transfer call ctx [ItemString full_domain; ItemString a] w in
  (Storage (world_after w alloc_b) !! other = Storage w !! other /\
   Storage (world_after w alloc_t) !! other = Storage w !! other /\
   Storage (world_after w free_b) !! other = Storage w !! other /\
   Storage (world_after w free_t) !! other = Storage w !! other /\
   Storage (world_after w transfer_b) !! other = Storage w !! other /\
   Storage (world_after w transfer_t) !! other = Storage w !! other) /\
  (transfers (world_after w alloc_b) = transfers w /\
   transfers (world_after w alloc_t) = transfers w /\
   transfers (world_after w transfer_b) = transfers w /\
   transfers (world_after w transfer_t) = transfers w).
Proof.
  intros Hsplit Hother. cbv zeta.
  assert (label <> other) as Hne by congruence.
  rewrite (Buffer_dns_alloc_terminal call ctx w _ _ a Hsplit),
          (Typed_dns_alloc_terminal call ctx w _ _ a Hsplit),
          (Buffer_dns_free_terminal call ctx w _ _ Hsplit),
          (Typed_dns_free_terminal call ctx w _ _ Hsplit),
          (Buffer_dns_transfer_terminal call ctx w _ _ a Hsplit),
          (Typed_dns_transfer_terminal call ctx w _ _ a Hsplit).
  destruct (transferredCoins ctx <? Amount_value (compute_cost label));
    destruct (Storage w !! label) as [owner|];
    try destruct (str_ne owner (toString (caller ctx)));
    cbn [world_after recorded released Storage transfers];
    rewrite ?lookup_insert_ne, ?lookup_delete_ne by exact Hne;
    repeat split.
Qed.

Lemma X13_terminal_operations_frame_witness :
  let ctx := new_Context (new_Address (lit "A")) (1000 * ONE_UNIT) in
  let w := world_of [(lit "foo", lit "A"); (lit "bar", lit "B")] in
  Storage
    (world_after w (Typed.dns_free (answering []) ctx [ItemString (lit "foo")] w))
    !! lit "bar"
  = Storage w !! lit "bar".
Proof.
  cbv zeta.
  apply (X13_terminal_operations_frame (answering [])
           (new_Context (new_Address (lit "A")) (1000 * ONE_UNIT))
           (world_of [(lit "foo", lit "A"); (lit "bar", lit "B")])
           (lit "foo") (lit "foo") (lit "A") (lit "bar"));
    [reflexivity | discriminate].
Defined.

(** ** Sequences of operations *)

(** X14: when the caller is the recorded owner of a terminal name,
    [dns_transfer] succeeds and records the new address; from then on
    [dns_resolve] returns the new address, a [dns_free] by the previous
    owner is refused with "Only the owner of the domain can free it."
    (unless it transferred to itself), and a [dns_free] by the new owner
    succeeds and refunds the new owner. *)
Theorem X14_transfer_hands_over call ctx w full_domain label new_addr coins :
  split_domain full_domain = ([], label) ->
  Storage w !! label = Some (toString (caller ctx)) ->
  let w' := recorded label new_addr w in
  let new_ctx := new_Context (new_Address new_addr) coins in
  Buffer.dns_transfer call ctx [ItemString full_domain; ItemString new_addr] w
  = Returned (success_buffer (ItemBytes [])) w' /\
  Typed.dns_transfer call ctx [ItemString full_domain; ItemString new_addr] w
  = Returned (Ok []) w' /\
  Typed.dns_resolve [ItemString full_domain] w'
  = Returned (Ok (new_Address new_addr)) w' /\
  (new_addr <> toString (caller ctx) ->
   Typed.dns_free call ctx [ItemString full_domain] w'
   = Returned (Err [] MSG_ONLY_OWNER) w' /\
   Buffer.dns_free call ctx [ItemString full_domain] w'
   = Returned (failure_buffer MSG_ONLY_OWNER) w') /\
  Typed.dns_free call new_ctx [ItemString full_domain] w'
  = Returned (Ok [])
      (released label (new_Address new_addr)
         (Amount_value (compute_cost label) / 2) w').
Proof.
  intros Hsplit Hget w' new_ctx.
  assert (Storage w' !! label = Some new_addr) as Hget'
    by (subst w'; unfold recorded; cbn [Storage]; apply lookup_insert_eq).
  rewrite (Buffer_dns_transfer_terminal call ctx w _ _ new_addr Hsplit),
          (Typed_dns_transfer_terminal call ctx w _ _ new_addr Hsplit),
          (Typed_dns_resolve_terminal w' _ _ Hsplit),
          (Typed_dns_free_terminal call ctx w' _ _ Hsplit),
          (Buffer_dns_free_terminal call ctx w' _ _ Hsplit),
          (Typed_dns_free_terminal call new_ctx w' _ _ Hsplit),
          Hget, Hget', str_ne_refl.
  subst new_ctx. cbn [caller toString]. rewrite str_ne_refl.
  split; [reflexivity|]. split; [reflexivity|]. split; [reflexivity|].
  split; [|reflexivity].
  intros Hne. apply str_ne_true in Hne. rewrite Hne. split; reflexivity.
Qed.

Lemma X14_transfer_hands_over_witness :
  let ctx := new_Context (new_Address (lit "A")) 0 in
  let w := world_of [(lit "foo", lit "A")] in
  let w' := recorded (lit "foo") (lit "B") w in
  Typed.dns_transfer (answering []) ctx
    [ItemString (lit "foo"); ItemString (lit "B")] w
  = Returned (Ok []) w' /\
  Typed.dns_free (answering []) ctx [ItemString (lit "foo")] w'
  = Returned (Err [] MSG_ONLY_OWNER) w'.
Proof.
  cbv zeta.
  destruct (X14_transfer_hands_over (answering [])
              (new_Context (new_Address (lit "A")) 0)
              (world_of [(lit "foo", lit "A")])
              (lit "foo") (lit "foo") (lit "B") 0 eq_refl eq_refl)
    as (_ & Htransfer & _ & Hold & _).
  split; [exact Htransfer|].
  apply Hold. discriminate.
Defined.

(** X15: after the owner has freed a terminal name, its label has no
    record.  [dns_resolve] then stops at the failed lookup; a further
    [dns_free] or [dns_transfer] by anyone leaves the world as it is, so no
    second refund is issued (where the lookup answers a miss with the empty
    owner, a caller with a non-empty identity gets the owner-only
    refusal); and [dns_alloc] with a sufficient payment records the name
    again. *)
Theorem X15_freed_name_is_unclaimed
        call ctx ctx' w full_domain label a :
  split_domain full_domain = ([], label) ->
  Storage w !! label = Some (toString (caller ctx)) ->
  let w' := released label (caller ctx)
              (Amount_value (compute_cost label) / 2) w in
  Typed.dns_free call ctx [ItemString full_domain] w = Returned (Ok []) w' /\
  Storage w' !! label = None /\
  Typed.dns_resolve [ItemString full_domain] w' = Aborted (NotFound label) /\
  (world_after w' (Typed.dns_free call ctx' [ItemString full_domain] w') = w' /\
   world_after w' (Buffer.dns_free call ctx' [ItemString full_domain] w') = w' /\
   world_after w'
     (Typed.dns_transfer call ctx' [ItemString full_domain; ItemString a] w')
   = w' /\
   world_after w'
     (Buffer.dns_transfer call ctx' [ItemString full_domain; ItemString a] w')
   = w') /\
  (toString (caller ctx') <> [] ->
   HostedTyped.dns_free Storage_get_or_empty call ctx'
     [ItemString full_domain] w'
   = Returned (Err [] MSG_ONLY_OWNER) w' /\
   HostedBuffer.dns_free Storage_get_or_empty call ctx'
     [ItemString full_domain] w'
   = Returned (failure_buffer MSG_ONLY_OWNER) w') /\
  (Amount_value (compute_cost label) <= transferredCoins ctx' ->
   Typed.dns_alloc call ctx' [ItemString full_domain; ItemString a] w'
   = Returned (Ok []) (recorded label a w')).
Proof.
  intros Hsplit Hget w'.
  assert (Storage w' !! label = None) as Hget'
    by (subst w'; unfold released; cbn [Storage]; apply lookup_delete_eq).
  rewrite (Typed_dns_free_terminal call ctx w _ _ Hsplit),
          (Typed_dns_resolve_terminal w' _ _ Hsplit),
          (Typed_dns_free_terminal call ctx' w' _ _ Hsplit),
          (Buffer_dns_free_terminal call ctx' w' _ _ Hsplit),
          (Typed_dns_transfer_terminal call ctx' w' _ _ a Hsplit),
          (Buffer_dns_transfer_terminal call ctx' w' _ _ a Hsplit),
          (Typed_dns_alloc_terminal call ctx' w' _ _ a Hsplit),
          Hget, Hget', str_ne_refl.
  split; [reflexivity|]. split; [reflexivity|]. split; [reflexivity|].
  split; [repeat split|]. split.
  - intros Hcaller.
    assert ([] <> toString (caller ctx')) as Hne by congruence.
    destruct (Hosted_refuses_other_owner Storage_get_or_empty call ctx' w'
                full_domain label a [] Hsplit) as (Hb & _ & Ht & _);
      [unfold Storage_get_or_empty; rewrite Hget'; reflexivity | exact Hne |].
    split; [exact Ht | exact Hb].
  - intros Hpay.
    replace (transferredCoins ctx' <? Amount_value (compute_cost label))
      with false by (symmetry; apply Z.ltb_ge; exact Hpay).
    reflexivity.
Qed.

Lemma X15_freed_name_is_unclaimed_witness :
  let ctx := new_Context (new_Address (lit "A")) 0 in
  let w := world_of [(lit "foo", lit "A")] in
  let w' := released (lit "foo") (new_Address (lit "A")) (500 * ONE_UNIT) w in
  Typed.dns_free (answering []) ctx [ItemString (lit "foo")] w
  = Returned (Ok []) w' /\
  world_after w' (Typed.dns_free (answering []) ctx [ItemString (lit "foo")] w')
  = w' /\
  HostedTyped.dns_free Storage_get_or_empty (answering []) ctx
    [ItemString (lit "foo")] w'
  = Returned (Err [] MSG_ONLY_OWNER) w'.
Proof.
  cbv zeta.
  destruct (X15_freed_name_is_unclaimed (answering [])
              (new_Context (new_Address (lit "A")) 0)
              (new_Context (new_Address (lit "A")) 0)
              (world_of [(lit "foo", lit "A")])
              (lit "foo") (lit "foo") (lit "A") eq_refl eq_refl)
    as (Hfree & _ & _ & (Hagain & _) & Hhosted & _).
  split; [exact Hfree|]. split; [exact Hagain|].
  apply Hhosted. discriminate.
Defined.

(** X16: allocating an unclaimed terminal name for the caller and freeing
    it again restores the store exactly; the only trace is one transfer of
    half the cost to the caller, and since the payment was at least the
    cost, the caller gets back at most half of what was paid. *)
Theorem X16_alloc_then_free_restores_store call ctx w full_domain label :
  split_domain full_domain = ([], label) ->
  Storage w !! label = None ->
  Amount_value (compute_cost label) <= transferredCoins ctx ->
  let refund := Amount_value (compute_cost label) / 2 in
  (let* _ := Typed.dns_alloc call ctx
               [ItemString full_domain; ItemString (toString (caller ctx))] in
   Typed.dns_free call ctx [ItemString full_domain]) w
  = Returned (Ok [])
      (new_world (Storage w) ((caller ctx, refund) :: transfers w)) /\
  2 * refund <= transferredCoins ctx.
Proof.
  intros Hsplit Hnone Hpay refund. split.
  - unfold bind.
    rewrite (Typed_dns_alloc_terminal call ctx w _ _ _ Hsplit).
    replace (transferredCoins ctx <? Amount_value (compute_cost label))
      with false by (symmetry; apply Z.ltb_ge; exact Hpay).
    rewrite (Typed_dns_free_terminal call ctx _ _ _ Hsplit).
    unfold recorded. cbn [Storage].
    rewrite lookup_insert_eq, str_ne_refl.
    unfold released. cbn [Storage transfers].
    rewrite delete_insert_id by exact Hnone. reflexivity.
  - subst refund.
    pose proof (Z.mul_div_le (Amount_value (compute_cost label)) 2 eq_refl).
    lia.
Qed.

Lemma X16_alloc_then_free_restores_store_witness :
  let ctx := new_Context (new_Address (lit "A")) (10000 * ONE_UNIT) in
  let w := world_of [(lit "foo", lit "B")] in
  (let* _ := Typed.dns_alloc (answering []) ctx
               [ItemString (lit "ab"); ItemString (lit "A")] in
   Typed.dns_free (answering []) ctx [ItemString (lit "ab")]) w
  = Returned (Ok [])
      (new_world (Storage w) [(new_Address (lit "A"), 5000 * ONE_UNIT)]).
Proof.
  cbv zeta.
  apply (X16_alloc_then_free_restores_store (answering [])
           (new_Context (new_Address (lit "A")) (10000 * ONE_UNIT))
           (world_of [(lit "foo", lit "B")]) (lit "ab") (lit "ab"));
    [reflexivity | reflexivity | vm_compute; discriminate].
Defined.

(** X17: [dns_alloc] does not look at the existing record.  When a terminal
    name recorded for [A] is allocated again for another address [B] with
    a sufficient payment, by any caller, the record is replaced without any
    transfer to [A], and [A] can afterwards neither free nor transfer the
    name. *)
Theorem X17_reallocation_evicts_owner
        call ctx ctx_A w full_domain label A B c :
  split_domain full_domain = ([], label) ->
  Storage w !! label = Some A ->
  toString (caller ctx_A) = A ->
  B <> A ->
  Amount_value (compute_cost label) <= transferredCoins ctx ->
  let w' := recorded label B w in
  Typed.dns_alloc call ctx [ItemString full_domain; ItemString B] w
  = Returned (Ok []) w' /\
  Buffer.dns_alloc call ctx [ItemString full_domain; ItemString B] w
  = Returned (success_buffer (ItemBytes [])) w' /\
  transfers w' = transfers w /\
  Typed.dns_free call ctx_A [ItemString full_domain] w'
  = Returned (Err [] MSG_ONLY_OWNER) w' /\
  Typed.dns_transfer call ctx_A [ItemString full_domain; ItemString c] w'
  = Returned (Err [] MSG_ONLY_OWNER) w' /\
  Buffer.dns_free call ctx_A [ItemString full_domain] w'
  = Returned (failure_buffer MSG_ONLY_OWNER) w' /\
  Buffer.dns_transfer call ctx_A [ItemString full_domain; ItemString c] w'
  = Returned (failure_buffer MSG_ONLY_OWNER) w'.
Proof.
  intros Hsplit Hget HA Hne Hpay w'.
  assert (Storage w' !! label = Some B) as Hget'
    by (subst w'; unfold recorded; cbn [Storage]; apply lookup_insert_eq).
  rewrite (Typed_dns_alloc_terminal call ctx w _ _ B Hsplit),
          (Buffer_dns_alloc_terminal call ctx w _ _ B Hsplit),
          (Typed_dns_free_terminal call ctx_A w' _ _ Hsplit),
          (Typed_dns_transfer_terminal call ctx_A w' _ _ c Hsplit),
          (Buffer_dns_free_terminal call ctx_A w' _ _ Hsplit),
          (Buffer_dns_transfer_terminal call ctx_A w' _ _ c Hsplit),
          Hget', HA.
  replace (transferredCoins ctx <? Amount_value (compute_cost label))
    with false by (symmetry; apply Z.ltb_ge; exact Hpay).
  apply str_ne_true in Hne. rewrite Hne.
  repeat split.
Qed.

Lemma X17_reallocation_evicts_owner_witness :
  let ctx := new_Context (new_Address (lit "B")) (1000 * ONE_UNIT) in
  let ctx_A := new_Context (new_Address (lit "A")) 0 in
  let w := world_of [(lit "foo", lit "A")] in
  let w' := recorded (lit "foo") (lit "B") w in
  Typed.dns_alloc (answering []) ctx
    [ItemString (lit "foo"); ItemString (lit "B")] w
  = Returned (Ok []) w' /\
  Typed.dns_free (answering []) ctx_A [ItemString (lit "foo")] w'
  = Returned (Err [] MSG_ONLY_OWNER) w'.
Proof.
  cbv zeta.
  destruct (X17_reallocation_evicts_owner (answering [])
              (new_Context (new_Address (lit "B")) (1000 * ONE_UNIT))
              (new_Context (new_Address (lit "A")) 0)
              (world_of [(lit "foo", lit "A")])
              (lit "foo") (lit "foo") (lit "A") (lit "B") (lit "C")
              eq_refl eq_refl eq_refl ltac:(discriminate)
              ltac:(vm_compute; discriminate))
    as (Halloc & _ & _ & Hfree & _).
  split; [exact Halloc | exact Hfree].
Defined.

(** X18: the quote is the threshold of the allocation.  On a terminal name,
    when [dns_alloc_cost] answers without error, [dns_alloc] succeeds with
    any payment of at least the quoted amount and is refused with "Not
    enough coins to pay for the domain name." with any smaller payment. *)
Theorem X18_quote_is_allocation_threshold
        call ctx w full_domain label a quote w1 :
  split_domain full_domain = ([], label) ->
  Typed.dns_alloc_cost [ItemString full_domain; ItemString a] w
  = Returned quote w1 ->
  isOk quote = true ->
  (Amount_value (value quote) <= transferredCoins ctx ->
   Typed.dns_alloc call ctx [ItemString full_domain; ItemString a] w
   = Returned (Ok []) (recorded label a w) /\
   Buffer.dns_alloc call ctx [ItemString full_domain; ItemString a] w
   = Returned (success_buffer (ItemBytes [])) (recorded label a w)) /\
  (transferredCoins ctx < Amount_value (value quote) ->
   Typed.dns_alloc call ctx [ItemString full_domain; ItemString a] w
   = Returned (Err [] MSG_NOT_ENOUGH_COINS) w /\
   Buffer.dns_alloc call ctx [ItemString full_domain; ItemString a] w
   = Returned (failure_buffer MSG_NOT_ENOUGH_COINS) w).
Proof.
  intros Hsplit Hquote Hok.
  rewrite (Typed_dns_alloc_cost_run w _ _ _ a Hsplit), str_ne_refl in Hquote.
  injection Hquote as <- _.
  unfold local_quote in *.
  destruct (is_valid_domain label); [|discriminate Hok].
  cbn [value Ok].
  rewrite (Typed_dns_alloc_terminal call ctx w _ _ a Hsplit),
          (Buffer_dns_alloc_terminal call ctx w _ _ a Hsplit).
  destruct (Z.ltb_spec (transferredCoins ctx) (Amount_value (compute_cost label)));
    split; intros; solve [lia | split; reflexivity].
Qed.

Lemma X18_quote_is_allocation_threshold_witness :
  let w := world_of [] in
  Typed.dns_alloc (answering [])
    (new_Context (new_Address (lit "A")) (1000 * ONE_UNIT))
    [ItemString (lit "foo"); ItemString (lit "A")] w
  = Returned (Ok []) (recorded (lit "foo") (lit "A") w) /\
  Buffer.dns_alloc (answering [])
    (new_Context (new_Address (lit "A")) (1000 * ONE_UNIT))
    [ItemString (lit "foo"); ItemString (lit "A")] w
  = Returned (success_buffer (ItemBytes [])) (recorded (lit "foo") (lit "A") w).
Proof.
  cbv zeta.
  apply (X18_quote_is_allocation_threshold (answering [])
           (new_Context (new_Address (lit "A")) (1000 * ONE_UNIT))
           (world_of []) (lit "foo") (lit "foo") (lit "A")
           (Ok (compute_cost (lit "foo"))) (world_of []));
    [reflexivity | reflexivity | reflexivity | vm_compute; discriminate].
Defined.

(** ** The two variants side by side *)

(** X19: on a terminal name the buffer variant of every operation returns
    the serialization of what the typed variant returns, leaves the same
    world, and aborts exactly when the typed variant does. *)
Theorem X19_buffer_serializes_typed call ctx w full_domain label a :
  split_domain full_domain = ([], label) ->
  Buffer.dns_resolve call ctx [ItemString full_domain] w
  = serialized (fun o => ItemString (toString o))
      (Typed.dns_resolve [ItemString full_domain] w) /\
  Buffer.dns_alloc_cost call ctx [ItemString full_domain; ItemString a] w
  = serialized ItemAmount
      (Typed.dns_alloc_cost [ItemString full_domain; ItemString a] w) /\
  Buffer.dns_alloc call ctx [ItemString full_domain; ItemString a] w
  = serialized ItemBytes
      (Typed.dns_alloc call ctx [ItemString full_domain; ItemString a] w) /\
  Buffer.dns_free call ctx [ItemString full_domain] w
  = serialized ItemBytes (Typed.dns_free call ctx [ItemString full_domain] w) /\
  Buffer.dns_transfer call ctx [ItemString full_domain; ItemString a] w
  = serialized ItemBytes
      (Typed.dns_transfer call ctx [ItemString full_domain; ItemString a] w).
Proof.
  intros Hsplit.
  rewrite (Buffer_dns_resolve_terminal call ctx w _ _ Hsplit),
          (Typed_dns_resolve_terminal w _ _ Hsplit),
          (Buffer_dns_alloc_cost_terminal call ctx w _ _ a Hsplit),
          (Typed_dns_alloc_cost_run w _ _ _ a Hsplit),
          (Buffer_dns_alloc_terminal call ctx w _ _ a Hsplit),
          (Typed_dns_alloc_terminal call ctx w _ _ a Hsplit),
          (Buffer_dns_free_terminal call ctx w _ _ Hsplit),
          (Typed_dns_free_terminal call ctx w _ _ Hsplit),
          (Buffer_dns_transfer_terminal call ctx w _ _ a Hsplit),
          (Typed_dns_transfer_terminal call ctx w _ _ a Hsplit),
          str_ne_refl.
  destruct (Storage w !! label) as [owner|];
    try destruct (str_ne owner (toString (caller ctx)));
    destruct (transferredCoins ctx <? Amount_value (compute_cost label));
    repeat split.
Qed.

Lemma X19_buffer_serializes_typed_witness :
  let ctx := new_Context (new_Address (lit "A")) 0 in
  let w := world_of [(lit "foo", lit "A")] in
  Buffer.dns_resolve (answering []) ctx [ItemString (lit "foo")] w
  = serialized (fun o => ItemString (toString o))
      (Typed.dns_resolve [ItemString (lit "foo")] w).
Proof.
  cbv zeta.
  apply (X19_buffer_serializes_typed (answering [])
           (new_Context (new_Address (lit "A")) 0)
           (world_of [(lit "foo", lit "A")]) (lit "foo") (lit "foo") (lit "A")).
  reflexivity.
Defined.

(** X20: among labels accepted by [is_valid_domain], a longer label never
    costs more than a shorter one. *)
Theorem X20_valid_labels_cost_antitone (a b : str) :
  is_valid_domain a = true ->
  str_length a <= str_length b ->
  Amount_value (compute_cost b) <= Amount_value (compute_cost a).
Proof.
  rewrite is_valid_domain_forallb, andb_true_iff, negb_true_iff, Z.ltb_ge.
  intros [Hlen _] Hle.
  rewrite !compute_cost_tier.
  destruct (tier_cases (str_length a)) as [[La Ea]|[[La Ea]|[[La Ea]|[La Ea]]]];
  destruct (tier_cases (str_length b)) as [[Lb Eb]|[[Lb Eb]|[[Lb Eb]|[Lb Eb]]]];
    rewrite Ea, Eb; unfold ONE_UNIT; lia.
Qed.

Lemma X20_valid_labels_cost_antitone_witness :
  Amount_value (compute_cost (lit "abcdefghijkl"))
  <= Amount_value (compute_cost (lit "abc")).
Proof.
  apply (X20_valid_labels_cost_antitone (lit "abc") (lit "abcdefghijkl")).
  - reflexivity.
  - vm_compute. discriminate.
Defined.

(** ** Ownership as a safety property *)

(** X21: on a terminal name, [dns_free] and [dns_transfer] of either
    variant change the world (a record or the issued transfers) only when
    the caller is the recorded owner of the label; in every other case,
    missing record included, the world after the invocation is the world
    before it. *)
Theorem X21_only_the_owner_changes_the_world
        call ctx w full_domain label new_addr :
  split_domain full_domain = ([], label) ->
  Storage w !! label <> Some (toString (caller ctx)) ->
  world_after w (Buffer.dns_free call ctx [ItemString full_domain] w) = w /\
  world_after w (Typed.dns_free call ctx [ItemString full_domain] w) = w /\
  world_after w
    (Buffer.dns_transfer call ctx
       [ItemString full_domain; ItemString new_addr] w) = w /\
  world_after w
    (Typed.dns_transfer call ctx
       [ItemString full_domain; ItemString new_addr] w) = w.
Proof.
  intros Hsplit Hnot.
  rewrite (Buffer_dns_free_terminal call ctx w _ _ Hsplit),
          (Typed_dns_free_terminal call ctx w _ _ Hsplit),
          (Buffer_dns_transfer_terminal call ctx w _ _ new_addr Hsplit),
          (Typed_dns_transfer_terminal call ctx w _ _ new_addr Hsplit).
  destruct (Storage w !! label) as [owner|]; [|repeat split].
  assert (owner <> toString (caller ctx)) as Hne by congruence.
  apply str_ne_true in Hne. rewrite Hne. repeat split.
Qed.

Lemma X21_only_the_owner_changes_the_world_witness :
  let ctx := new_Context (new_Address (lit "B")) 0 in
  let w := world_of [(lit "foo", lit "A")] in
  world_after w (Buffer.dns_free (answering []) ctx [ItemString (lit "foo")] w)
  = w /\
  world_after w (Typed.dns_free (answering []) ctx [ItemString (lit "foo")] w)
  = w /\
  world_after w
    (Buffer.dns_transfer (answering []) ctx
       [ItemString (lit "foo"); ItemString (lit "B")] w) = w /\
  world_after w
    (Typed.dns_transfer (answering []) ctx
       [ItemString (lit "foo"); ItemString (lit "B")] w) = w.
Proof.
  cbv zeta.
  apply (X21_only_the_owner_changes_the_world (answering [])
           (new_Context (new_Address (lit "B")) 0)
           (world_of [(lit "foo", lit "A")])
           (lit "foo") (lit "foo") (lit "B"));
    [reflexivity | discriminate].
Defined.
